(** * DNS-validated ACM certificates: a model of [ACM.py]

    The development embeds the class [DNSValidatedACMCertClient] of
    [create_and_validate_acm_cert/ACM.py].  Python dictionaries of a fixed
    shape become records; a key read with [.get] becomes an [option] field
    ([None] is Python's [None]).  The two boto3 clients, [time.sleep] and
    [print] act on an explicit [world]; a Python exception is the left
    injection of a sum. *)

From Stdlib Require Import Ascii String.
From stdpp Require Import base decidable numbers option list strings pretty.

Local Open Scope string_scope.
Local Open Scope list_scope.
Local Open Scope Z_scope.

(** ** Python values and exceptions *)

(** The exceptions the modelled code can raise.  [ClientError] stands for
    whatever a boto3 client call raises by itself. *)
Inductive exn : Type :=
  | AttributeError
  | TypeError
  | KeyError (key : string)
  | IndexError
  | ValueError
  | Exception (msg : string)
  | ClientError (detail : string).

#[global] Instance exn_eq_dec : EqDecision exn.
Proof. solve_decision. Defined.

(** [str(x)] for a value that is a string or [None]. *)
Definition py_str (o : option string) : string := default "None" o.

(** [s.split(sep)] for a one-character separator: the pieces between the
    separators, the empty pieces included; never the empty list. *)
Fixpoint py_split (sep : ascii) (s : string) : list string :=
  match s with
  | EmptyString => [EmptyString]
  | String c s' =>
      if decide (c = sep) then EmptyString :: py_split sep s'
      else match py_split sep s' with
           | piece :: pieces => String c piece :: pieces
           | [] => [String c EmptyString]
           end
  end.

(** [l[-1]]: the last item, [IndexError] on the empty list. *)
Definition py_last_item {A} (l : list A) : exn + A :=
  match last l with
  | Some x => inr x
  | None => inl IndexError
  end.

(** ** The data of the two services *)

(** The [ResourceRecord] dictionary of a domain validation option. *)
Record ResourceRecord := {
  rr_Type : option string;
  rr_Name : option string;
  rr_Value : option string
}.

(** One entry of [DomainValidationOptions]; ACM leaves [ResourceRecord] out
    until the record is known. *)
Record DomainValidationOption := {
  dvo_ResourceRecord : option ResourceRecord
}.

Record Certificate := {
  Status : option string;
  DomainValidationOptions : option (list DomainValidationOption)
}.

(** The response of [describe_certificate]. *)
Record DescribeResponse := {
  dr_Certificate : option Certificate
}.

(** The response of [request_certificate] and of
    [change_resource_record_sets], as far as the code reads it. *)
Record BotoResponse := {
  HTTPStatusCode : option Z;
  CertificateArn : option string
}.

Record HostedZone := {
  zone_Name : option string;
  zone_Id : option string
}.

(** The full result of the [list_hosted_zones] paginator. *)
Record ZoneListing := {
  HostedZones : list HostedZone
}.

Record ResourceRecordValue := {
  Value : option string
}.

Record ResourceRecordSet := {
  Name : option string;
  Type_ : option string;
  ResourceRecords : list ResourceRecordValue;
  TTL : Z
}.

(** One entry of a Route 53 change batch. *)
Record Change := {
  Action : string;
  change_ResourceRecordSet : ResourceRecordSet
}.

#[global] Instance ResourceRecord_eq_dec : EqDecision ResourceRecord.
Proof. solve_decision. Defined.
#[global] Instance ResourceRecordValue_eq_dec : EqDecision ResourceRecordValue.
Proof. solve_decision. Defined.
#[global] Instance ResourceRecordSet_eq_dec : EqDecision ResourceRecordSet.
Proof. solve_decision. Defined.
#[global] Instance Change_eq_dec : EqDecision Change.
Proof. solve_decision. Defined.
#[global] Instance BotoResponse_eq_dec : EqDecision BotoResponse.
Proof. solve_decision. Defined.

(** A keyword argument of [acm_client.request_certificate]. *)
Inductive kwarg : Type :=
  | KStr (s : string)
  | KList (l : list string).

#[global] Instance kwarg_eq_dec : EqDecision kwarg.
Proof. solve_decision. Defined.

Definition kwargs := list (string * kwarg).

(** What [tldextract.extract] returns. *)
Record ExtractResult := {
  subdomain : string;
  domain : string;
  suffix : string
}.

(** ** The world the client acts on *)

(** One call of [route_53_client.change_resource_record_sets], with what the
    service answered. *)
Record R53Call := {
  call_HostedZoneId : string;
  call_Changes : list Change;
  call_outcome : exn + BotoResponse
}.

Record world := {
  acm_requests : list kwargs;      (* request_certificate calls, oldest first *)
  describe_calls : list string;    (* describe_certificate calls, oldest first *)
  r53_calls : list R53Call;        (* change_resource_record_sets calls *)
  sleeps : list Z;                 (* time.sleep calls *)
  stdout : list string             (* printed lines *)
}.

Definition initial_world : world :=
  {| acm_requests := []; describe_calls := []; r53_calls := [];
     sleeps := []; stdout := [] |}.

(** ** A state and exception monad *)

Definition M (A : Type) : Type := world -> (exn + A) * world.

Definition ret {A} (a : A) : M A := fun w => (inr a, w).
Definition raise {A} (e : exn) : M A := fun w => (inl e, w).
Definition bind {A B} (m : M A) (k : A -> M B) : M B :=
  fun w => match m w with
           | (inl e, w') => (inl e, w')
           | (inr a, w') => k a w'
           end.
Definition lift {A} (r : exn + A) : M A := fun w => (r, w).

Notation "'do' x <- m ; k" := (bind m (fun x => k))
  (at level 10, x name, m at level 100, k at level 200,
   format "'[v' 'do'  x  <-  m ; '/' k ']'").
Notation "'run' m ; k" := (bind m (fun _ => k))
  (at level 10, m at level 100, k at level 200,
   format "'[v' 'run'  m ; '/' k ']'").

(** [for x in l: body(x)]. *)
Fixpoint for_each {A} (l : list A) (body : A -> M unit) : M unit :=
  match l with
  | [] => ret tt
  | x :: l' => run body x; for_each l' body
  end.

(** [[f(x) for x in l]]. *)
Fixpoint list_comprehension {A B} (f : A -> M B) (l : list A) : M (list B) :=
  match l with
  | [] => ret []
  | x :: l' => do y <- f x; do ys <- list_comprehension f l'; ret (y :: ys)
  end.

(** The five ways the world changes. *)
Definition printed (line : string) (w : world) : world :=
  {| acm_requests := acm_requests w; describe_calls := describe_calls w;
     r53_calls := r53_calls w; sleeps := sleeps w;
     stdout := stdout w ++ [line] |}.

Definition slept (secs : Z) (w : world) : world :=
  {| acm_requests := acm_requests w; describe_calls := describe_calls w;
     r53_calls := r53_calls w; sleeps := sleeps w ++ [secs];
     stdout := stdout w |}.

Definition requested (kw : kwargs) (w : world) : world :=
  {| acm_requests := acm_requests w ++ [kw]; describe_calls := describe_calls w;
     r53_calls := r53_calls w; sleeps := sleeps w;
     stdout := stdout w |}.

Definition described (arn : string) (w : world) : world :=
  {| acm_requests := acm_requests w; describe_calls := describe_calls w ++ [arn];
     r53_calls := r53_calls w; sleeps := sleeps w;
     stdout := stdout w |}.

Definition submitted (call : R53Call) (w : world) : world :=
  {| acm_requests := acm_requests w; describe_calls := describe_calls w;
     r53_calls := r53_calls w ++ [call]; sleeps := sleeps w;
     stdout := stdout w |}.

Definition print (line : string) : M unit :=
  fun w => (inr tt, printed line w).

(** [time.sleep(secs)]; a negative length is a [ValueError]. *)
Definition time_sleep (secs : Z) : M unit :=
  fun w => if decide (secs < 0) then (inl ValueError, w)
           else (inr tt, slept secs w).

(** ** The client *)

(** The attributes of [self] the methods read: the constructor stores the
    primary domain and drains the hosted-zone paginator once. *)
Record DNSValidatedACMCertClient := {
  self_domain : string;
  route53_zones : ZoneListing
}.

(** [get_certificate_arn]. *)
Definition get_certificate_arn (response : BotoResponse) : option string :=
  CertificateArn response.

(** [get_resource_record_data]. *)
Definition get_resource_record_data (r : ResourceRecord)
  : option string * option string * option string :=
  (rr_Type r, rr_Name r, rr_Value r).

(** The dictionary [create_dns_record_set] returns. *)
Definition dns_record_set (record_type record_name record_value : option string)
  : Change :=
  {| Action := "UPSERT";
     change_ResourceRecordSet :=
       {| Name := record_name;
          Type_ := record_type;
          ResourceRecords := [ {| Value := record_value |} ];
          TTL := 300 |} |}.

(** [create_dns_record_set]: [record.get('ResourceRecord')] is [None] when
    the key is missing, and [None.get] is an [AttributeError]. *)
Definition create_dns_record_set (record : DomainValidationOption) : M Change :=
  match dvo_ResourceRecord record with
  | None => raise AttributeError
  | Some r =>
      let '(record_type, record_name, record_value) := get_resource_record_data r in
      run print ("Creating " +:+ py_str record_type +:+ " record for "
                 +:+ py_str record_name);
      ret (dns_record_set record_type record_name record_value)
  end.

(** [remove_duplicate_upsert_records]: the comprehension appends to
    [unique_list] each object not yet in it. *)
Definition append_if_new {A} `{EqDecision A} (unique_list : list A) (obj : A)
  : list A :=
  if decide (obj ∈ unique_list) then unique_list else unique_list ++ [obj].

Definition remove_duplicate_upsert_records (original_list : list Change)
  : list Change :=
  fold_left append_if_new original_list [].

(** [get_zone_id_from_id_string], nested in [get_hosted_zone_id]. *)
Definition get_zone_id_from_id_string (zone_id_string : string) : exn + string :=
  py_last_item (py_split "/"%char zone_id_string).

(** [domain_matches_hosted_zone], nested in [get_hosted_zone_id]. *)
Definition domain_matches_hosted_zone (domain : string) (zone : HostedZone) : bool :=
  bool_decide (zone_Name zone = Some (domain +:+ ".")).

Section Client.

(** The collaborators: the two boto3 clients (their answer may depend on
    everything that happened before), [tldextract.extract],
    [aws_helpers.response_succeeded] and Python's rendering of a response
    dictionary. *)
Variable acm_request_certificate : world -> kwargs -> exn + BotoResponse.
Variable acm_describe_certificate : world -> string -> exn + DescribeResponse.
Variable r53_change_resource_record_sets :
  world -> string -> list Change -> exn + BotoResponse.
Variable tldextract_extract : string -> ExtractResult.
Variable response_succeeded : BotoResponse -> bool.
Variable repr_response : BotoResponse -> string.

Definition call_request_certificate (kw : kwargs) : M BotoResponse :=
  fun w => (acm_request_certificate w kw, requested kw w).

Definition call_describe_certificate (arn : string) : M DescribeResponse :=
  fun w => (acm_describe_certificate w arn, described arn w).

Definition call_change_resource_record_sets
    (HostedZoneId : string) (Changes : list Change) : M BotoResponse :=
  fun w => let outcome := r53_change_resource_record_sets w HostedZoneId Changes in
           (outcome,
            submitted {| call_HostedZoneId := HostedZoneId;
                         call_Changes := Changes;
                         call_outcome := outcome |} w).

Variable self : DNSValidatedACMCertClient.

(** [request_certificate]: the handle, or Python's [None]. *)
Definition request_certificate (subject_alternative_names : list string)
  : M (option string) :=
  do response <-
    (if decide (0 < length subject_alternative_names)%nat then
       call_request_certificate
         [ ("DomainName", KStr (self_domain self));
           ("ValidationMethod", KStr "DNS");
           ("SubjectAlternativeNames", KList subject_alternative_names) ]
     else
       call_request_certificate
         [ ("DomainName", KStr (self_domain self));
           ("ValidationMethod", KStr "DNS") ]);
  if response_succeeded response then ret (get_certificate_arn response)
  else ret None.

(** [get_certificate_status]: both subscripts raise [KeyError] on a missing
    key. *)
Definition get_certificate_status (certificate_arn : string) : M string :=
  do response <- call_describe_certificate certificate_arn;
  match dr_Certificate response with
  | None => raise (KeyError "Certificate")
  | Some certificate =>
      match Status certificate with
      | None => raise (KeyError "Status")
      | Some status => ret status
      end
  end.

(** [wait_for_certificate_validation].  The [while] loop has no bound of
    its own, so the model counts the evaluations of its condition against
    [fuel]; [None] means the fuel ran out. *)
Fixpoint wait_loop (fuel : nat) (certificate_arn : string)
    (sleep_time timeout : Z) (status : string) (elapsed_time : Z) (w : world)
  : option ((exn + unit) * world) :=
  match fuel with
  | O => None
  | S fuel' =>
      if decide (status = "PENDING_VALIDATION") then
        if elapsed_time >? timeout then
          Some (inl (Exception ("Timeout (" +:+ pretty timeout
                                +:+ "s) reached for certificate validation")), w)
        else
          match (run print (certificate_arn +:+ ": Waiting " +:+ pretty sleep_time
                            +:+ "s for validation, " +:+ pretty elapsed_time
                            +:+ "s elapsed...");
                 run time_sleep sleep_time;
                 get_certificate_status certificate_arn) w with
          | (inl e, w') => Some (inl e, w')
          | (inr status', w') =>
              wait_loop fuel' certificate_arn sleep_time timeout status'
                (elapsed_time + sleep_time) w'
          end
      else Some (inr tt, w)
  end.

Definition wait_for_certificate_validation (fuel : nat)
    (certificate_arn : string) (sleep_time timeout : Z) (w : world)
  : option ((exn + unit) * world) :=
  match get_certificate_status certificate_arn w with
  | (inl e, w') => Some (inl e, w')
  | (inr status, w') =>
      wait_loop fuel certificate_arn sleep_time timeout status 0 w'
  end.

(** [get_domain_validation_records]: both keys are read with a default. *)
Definition get_domain_validation_records (arn : string)
  : M (list DomainValidationOption) :=
  do certificate_metadata <- call_describe_certificate arn;
  ret (match dr_Certificate certificate_metadata with
       | None => []
       | Some certificate => default [] (DomainValidationOptions certificate)
       end).

(** [get_domain_from_host], nested in [get_hosted_zone_id]. *)
Definition get_domain_from_host (validation_dns_record : string) : string :=
  let domain_tld_info := tldextract_extract validation_dns_record in
  domain domain_tld_info +:+ "." +:+ suffix domain_tld_info.

(** [get_hosted_zone_id].  The argument is whatever [.get('Name')] gave;
    on [None], [tldextract.extract] raises (which exception depends on the
    release of the library).  [target_record[0]] is an [IndexError] on the
    empty list, and [None.split] an [AttributeError]. *)
Definition get_hosted_zone_id (validation_dns_record : option string)
  : exn + string :=
  match validation_dns_record with
  | None => inl TypeError
  | Some host =>
      let hosted_zone_domain := get_domain_from_host host in
      let target_record :=
        List.filter
          (fun zone => domain_matches_hosted_zone hosted_zone_domain zone)
          (HostedZones (route53_zones self)) in
      match target_record with
      | [] => inl IndexError
      | zone :: _ =>
          match zone_Id zone with
          | None => inl AttributeError
          | Some zone_id_string => get_zone_id_from_id_string zone_id_string
          end
      end
  end.

(** The body of the [for change in unique_changes] loop. *)
Definition submit_change (change : Change) : M unit :=
  let record_name := Name (change_ResourceRecordSet change) in
  do hosted_zone_id <- lift (get_hosted_zone_id record_name);
  do response <- call_change_resource_record_sets hosted_zone_id [change];
  if response_succeeded response then
    print ("Successfully created Route 53 record set for " +:+ py_str record_name)
  else
    print ("Failed to create Route53 record set: " +:+ repr_response response).

(** Lines 129 to 135: the deduplicated changes of a certificate. *)
Definition build_change_set (records : list DomainValidationOption)
  : M (list Change) :=
  do changes <- list_comprehension create_dns_record_set records;
  ret (remove_duplicate_upsert_records changes).

(** [create_domain_validation_records]. *)
Definition create_domain_validation_records (arn : string) : M unit :=
  do domain_validation_records <- get_domain_validation_records arn;
  do unique_changes <- build_change_set domain_validation_records;
  for_each unique_changes submit_change.

End Client.

(** ** Concrete collaborators

    Instances of the section's variables, used to run the model on concrete
    inputs. *)

(** Modelled from the spec: [aws_helpers.response_succeeded] is imported by
    [ACM.py] and is not part of the embedded source.  The success signal is a
    boolean derived from the response's HTTP-status metadata; any non-2xx
    status is a failure. *)
Definition response_succeeded_2xx (response : BotoResponse) : bool :=
  match HTTPStatusCode response with
  | Some code => (200 <=? code) && (code <? 300)
  | None => false
  end.

(** A stand-in for [tldextract.extract] over a given public-suffix list: the
    longest listed suffix of the host's labels, the label before it, and the
    labels before that. *)
Fixpoint split_at_suffix (suffixes : list (list string)) (labels : list string)
  : list string * list string :=
  match labels with
  | [] => ([], [])
  | label :: rest =>
      if decide (labels ∈ suffixes) then ([], labels)
      else let '(before, found) := split_at_suffix suffixes rest in
           (label :: before, found)
  end.

Definition psl_extract (suffixes : list (list string)) (host : string)
  : ExtractResult :=
  let '(before, found) := split_at_suffix suffixes (py_split "."%char host) in
  {| subdomain := String.concat "." (removelast before);
     domain := default "" (last before);
     suffix := String.concat "." found |}.

Definition sample_suffixes : list (list string) :=
  [ ["com"]; ["org"]; ["uk"]; ["co"; "uk"] ].

Definition sample_extract : string -> ExtractResult := psl_extract sample_suffixes.

(** A rendering of a response: only its status code. *)
Definition sample_repr (response : BotoResponse) : string :=
  match HTTPStatusCode response with
  | Some code => "{'HTTPStatusCode': " +:+ pretty code +:+ "}"
  | None => "{}"
  end.

Definition describe_with (status : string) (options : list DomainValidationOption)
  : DescribeResponse :=
  {| dr_Certificate :=
       Some {| Status := Some status; DomainValidationOptions := Some options |} |}.

(** A certificate that never leaves [PENDING_VALIDATION]. *)
Definition always_pending (w : world) (arn : string) : exn + DescribeResponse :=
  inr (describe_with "PENDING_VALIDATION" []).

(** A certificate issued when it is described for the third time. *)
Definition issued_on_third_poll (w : world) (arn : string)
  : exn + DescribeResponse :=
  inr (describe_with
         (if decide (length (describe_calls w) < 2)%nat
          then "PENDING_VALIDATION" else "ISSUED") []).

Definition sample_ok : BotoResponse :=
  {| HTTPStatusCode := Some 200;
     CertificateArn := Some "arn:aws:acm:us-east-1:1:certificate/abc" |}.

Definition sample_rejected : BotoResponse :=
  {| HTTPStatusCode := Some 500; CertificateArn := None |}.

Definition acm_accepts (w : world) (kw : kwargs) : exn + BotoResponse :=
  inr sample_ok.

Definition acm_rejects (w : world) (kw : kwargs) : exn + BotoResponse :=
  inr sample_rejected.

(** A DNS service whose first answer is a failure and whose later answers
    are successes. *)
Definition r53_first_fails (w : world) (zone_id : string) (changes : list Change)
  : exn + BotoResponse :=
  inr (if decide (length (r53_calls w) = 0)%nat then sample_rejected
       else {| HTTPStatusCode := Some 200; CertificateArn := None |}).

Definition sample_zones : ZoneListing :=
  {| HostedZones :=
       [ {| zone_Name := Some "example.com."; zone_Id := Some "/hostedzone/Z123" |};
         {| zone_Name := Some "other.com."; zone_Id := Some "/hostedzone/Z456" |} ] |}.

Definition sample_client : DNSValidatedACMCertClient :=
  {| self_domain := "www.example.com"; route53_zones := sample_zones |}.

Definition sample_rr (name value : string) : ResourceRecord :=
  {| rr_Type := Some "CNAME"; rr_Name := Some name; rr_Value := Some value |}.

(** Three validation records, the third a repeat of the first. *)
Definition sample_records : list ResourceRecord :=
  [ sample_rr "_a.www.example.com" "_x.acm-validations.aws.";
    sample_rr "_b.api.other.com" "_y.acm-validations.aws.";
    sample_rr "_a.www.example.com" "_x.acm-validations.aws." ].

Definition sample_options : list DomainValidationOption :=
  (fun r => {| dvo_ResourceRecord := Some r |}) <$> sample_records.

(** A client whose listing has two zones named ["example.com."]. *)
Definition overlapping_client : DNSValidatedACMCertClient :=
  {| self_domain := "www.example.com";
     route53_zones :=
       {| HostedZones :=
            [ {| zone_Name := Some "other.com."; zone_Id := Some "/hostedzone/Z456" |};
              {| zone_Name := Some "example.com."; zone_Id := Some "/hostedzone/ZPUB" |};
              {| zone_Name := Some "example.com."; zone_Id := Some "/hostedzone/ZPRIV" |}
            ] |} |}.

Definition describes_options (w : world) (arn : string) : exn + DescribeResponse :=
  inr (describe_with "PENDING_VALIDATION" sample_options).

(** The two distinct changes of [sample_records]. *)
Definition sample_change_a : Change :=
  dns_record_set (Some "CNAME") (Some "_a.www.example.com")
    (Some "_x.acm-validations.aws.").

Definition sample_change_b : Change :=
  dns_record_set (Some "CNAME") (Some "_b.api.other.com")
    (Some "_y.acm-validations.aws.").

Definition sample_changes : list Change := [ sample_change_a; sample_change_b ].

(** The run of the method on the sample: the first answer of the DNS service
    is a failure. *)
Definition sample_run : (exn + unit) * world :=
  create_domain_validation_records describes_options r53_first_fails
    sample_extract response_succeeded_2xx sample_repr sample_client "arn"
    initial_world.

(** A client whose first zone named ["example.com."] has no [Id]. *)
Definition client_zone_without_id : DNSValidatedACMCertClient :=
  {| self_domain := "www.example.com";
     route53_zones :=
       {| HostedZones :=
            [ {| zone_Name := Some "example.com."; zone_Id := None |};
              {| zone_Name := Some "example.com."; zone_Id := Some "/hostedzone/Z123" |}
            ] |} |}.

(** A certificate whose validation has failed. *)
Definition describes_failed (w : world) (arn : string) : exn + DescribeResponse :=
  inr (describe_with "FAILED" []).

(** A description without the [Status] key. *)
Definition describes_without_status (w : world) (arn : string)
  : exn + DescribeResponse :=
  inr {| dr_Certificate :=
           Some {| Status := None; DomainValidationOptions := None |} |}.

(** A description without the [Certificate] key. *)
Definition describes_nothing (w : world) (arn : string) : exn + DescribeResponse :=
  inr {| dr_Certificate := None |}.

(** Two validation options, the second still without its [ResourceRecord]. *)
Definition describes_incomplete (w : world) (arn : string)
  : exn + DescribeResponse :=
  inr (describe_with "PENDING_VALIDATION"
         [ {| dvo_ResourceRecord :=
                Some (sample_rr "_a.www.example.com" "_x.acm-validations.aws.") |};
           {| dvo_ResourceRecord := None |} ]).

(** A DNS service that accepts every change. *)
Definition r53_accepts (w : world) (zone_id : string) (changes : list Change)
  : exn + BotoResponse :=
  inr {| HTTPStatusCode := Some 200; CertificateArn := None |}.

(** A DNS client that raises for the zone [Z456] and accepts the rest. *)
Definition r53_raises_for_other (w : world) (zone_id : string)
    (changes : list Change) : exn + BotoResponse :=
  if decide (zone_id = "Z456") then inl (ClientError "Throttling")
  else inr {| HTTPStatusCode := Some 200; CertificateArn := None |}.

(** A client that has the zone ["example.com."] only. *)
Definition client_one_zone : DNSValidatedACMCertClient :=
  {| self_domain := "www.example.com";
     route53_zones :=
       {| HostedZones :=
            [ {| zone_Name := Some "example.com.";
                 zone_Id := Some "/hostedzone/Z123" |} ] |} |}.

(** ** Vocabulary of the statements *)


(** The comprehension of [remove_duplicate_upsert_records], over any type
    of objects. *)
Definition unique {A} `{EqDecision A} (l : list A) : list A :=
  fold_left append_if_new l [].

(** The (type, name, value) triple of a validation record, and the change
    [create_dns_record_set] makes of a triple. *)
Definition triple : Type := (option string * option string * option string)%type.

Definition change_of_triple (t : triple) : Change :=
  let '(record_type, record_name, record_value) := t in
  dns_record_set record_type record_name record_value.



(** [w'] is [w] with more lines printed, and nothing else done. *)
Definition only_printed (w w' : world) : Prop :=
  acm_requests w' = acm_requests w
  /\ describe_calls w' = describe_calls w
  /\ r53_calls w' = r53_calls w
  /\ sleeps w' = sleeps w
  /\ exists lines, stdout w' = stdout w ++ lines.

(** The keyword arguments of the one CA request: the alternative names are
    part of it when there are some. *)
Definition request_kwargs (self : DNSValidatedACMCertClient)
    (subject_alternative_names : list string) : kwargs :=
  [ ("DomainName", KStr (self_domain self)); ("ValidationMethod", KStr "DNS") ]
  ++ match subject_alternative_names with
     | [] => []
     | _ :: _ => [ ("SubjectAlternativeNames", KList subject_alternative_names) ]
     end.

(** The [k]-th description of a certificate after [w0] (counting from 0),
    whatever else happened meanwhile, reports [status]. *)
Definition status_at_poll
    (acm_describe_certificate : world -> string -> exn + DescribeResponse)
    (w0 : world) (k : nat) (status : string) : Prop :=
  forall w arn,
    length (describe_calls w) = (length (describe_calls w0) + k)%nat ->
    exists certificate,
      acm_describe_certificate w arn = inr {| dr_Certificate := Some certificate |}
      /\ Status certificate = Some status.

(** Every description, whenever it is asked for, reports
    PENDING_VALIDATION. *)
Definition pending_forever
    (acm_describe_certificate : world -> string -> exn + DescribeResponse) : Prop :=
  forall w arn,
    exists certificate,
      acm_describe_certificate w arn = inr {| dr_Certificate := Some certificate |}
      /\ Status certificate = Some "PENDING_VALIDATION".

(** The line the wait prints before each sleep. *)
Definition waiting_line (certificate_arn : string) (sleep_time elapsed_time : Z)
  : string :=
  certificate_arn +:+ ": Waiting " +:+ pretty sleep_time
  +:+ "s for validation, " +:+ pretty elapsed_time +:+ "s elapsed...".

(** One turn of the wait: a line, a sleep, a poll. *)
Definition turn (arn : string) (sleep_time elapsed : Z) (w : world) : world :=
  described arn (slept sleep_time (printed (waiting_line arn sleep_time elapsed) w)).

(** The line [create_dns_record_set] prints for a record. *)
Definition creating_line (r : ResourceRecord) : string :=
  "Creating " +:+ py_str (rr_Type r) +:+ " record for " +:+ py_str (rr_Name r).

(** The line the submission loop prints for the answer to a change. *)
Definition outcome_line (response_succeeded : BotoResponse -> bool)
    (repr_response : BotoResponse -> string)
    (change : Change) (response : BotoResponse) : string :=
  if response_succeeded response then
    "Successfully created Route 53 record set for "
    +:+ py_str (Name (change_ResourceRecordSet change))
  else "Failed to create Route53 record set: " +:+ repr_response response.

(** The world after printing the lines, one after the other. *)
Definition printed_all (lines : list string) (w : world) : world :=
  fold_left (fun w line => printed line w) lines w.

(** A call for one change, sent to the zone of the change's name. *)
Definition targeted (tldextract_extract : string -> ExtractResult)
    (self : DNSValidatedACMCertClient) (call : R53Call) : Prop :=
  exists change,
    call_Changes call = [change]
    /\ get_hosted_zone_id tldextract_extract self
         (Name (change_ResourceRecordSet change))
       = inr (call_HostedZoneId call).

(** * Properties *)

(** Case analysis on [x ∈ [a; b; ...]]: [tac] closes the case of each item. *)
Ltac elem_of_cases H tac :=
  repeat (apply elem_of_cons in H as [H|H]; [try subst; tac|]);
  inversion H.

(** ** Splitting strings *)

Lemma py_split_not_nil sep s : py_split sep s <> [].
Proof.
  destruct s as [|c s]; simpl; [discriminate|].
  destruct (decide (c = sep)); [discriminate|].
  destruct (py_split sep s); discriminate.
Qed.

Lemma py_split_no_sep sep s :
  sep ∉ list_ascii_of_string s -> py_split sep s = [s].
Proof.
  induction s as [|c s IH]; simpl; intros Hnot; [reflexivity|].
  apply not_elem_of_cons in Hnot as [Hne Hnot].
  destruct (decide (c = sep)) as [->|_]; [congruence|].
  rewrite (IH Hnot). reflexivity.
Qed.

(** [(a + sep + b).split(sep) = a.split(sep) + b.split(sep)]. *)
Lemma py_split_app sep a b :
  py_split sep (a +:+ String sep b) = py_split sep a ++ py_split sep b.
Proof.
  induction a as [|c a IH]; simpl.
  - destruct (decide (sep = sep)); [reflexivity|congruence].
  - destruct (decide (c = sep)); rewrite IH; [reflexivity|].
    pose proof (py_split_not_nil sep a) as Hne.
    destruct (py_split sep a); [congruence|reflexivity].
Qed.

Lemma get_zone_id_from_id_string_total s :
  exists zone_id, get_zone_id_from_id_string s = inr zone_id.
Proof.
  unfold get_zone_id_from_id_string, py_last_item.
  pose proof (py_split_not_nil "/"%char s) as Hne.
  destruct (last (py_split "/" s)) as [x|] eqn:E; [eauto|].
  apply last_None in E. congruence.
Qed.

Lemma get_zone_id_from_id_string_after_slash a b :
  "/"%char ∉ list_ascii_of_string b ->
  get_zone_id_from_id_string (a +:+ "/" +:+ b) = inr b.
Proof.
  intros Hb. unfold get_zone_id_from_id_string, py_last_item.
  change (a +:+ "/" +:+ b) with (a +:+ String "/" b).
  rewrite py_split_app, (py_split_no_sep _ b Hb), last_snoc. reflexivity.
Qed.

Lemma get_zone_id_from_id_string_no_slash s :
  "/"%char ∉ list_ascii_of_string s ->
  get_zone_id_from_id_string s = inr s.
Proof.
  intros Hs. unfold get_zone_id_from_id_string, py_last_item.
  rewrite (py_split_no_sep _ s Hs). reflexivity.
Qed.

(** ** Resolving a record name to a hosted zone *)

Section ZoneLookup.

Variable tldextract_extract : string -> ExtractResult.
Variable self : DNSValidatedACMCertClient.

Let zones := HostedZones (route53_zones self).
Let registrable (host : string) : string :=
  domain (tldextract_extract host) +:+ "." +:+ suffix (tldextract_extract host).

Lemma domain_matches_hosted_zone_true d zone :
  domain_matches_hosted_zone d zone = true <-> zone_Name zone = Some (d +:+ ".").
Proof. unfold domain_matches_hosted_zone. apply bool_decide_eq_true. Qed.

Lemma domain_matches_hosted_zone_false d zone :
  domain_matches_hosted_zone d zone = false <-> zone_Name zone <> Some (d +:+ ".").
Proof. unfold domain_matches_hosted_zone. apply bool_decide_eq_false. Qed.

(** The zones the filter keeps start with the first zone that matches. *)
Lemma filter_first_match (f : HostedZone -> bool) pre zone post :
  Forall (fun z => f z = false) pre -> f zone = true ->
  List.filter f (pre ++ zone :: post) = zone :: List.filter f post.
Proof.
  intros Hpre Hzone. induction Hpre as [|z pre Hz _ IH]; simpl.
  - rewrite Hzone. reflexivity.
  - rewrite Hz. exact IH.
Qed.

Lemma filter_no_match (f : HostedZone -> bool) l :
  Forall (fun z => f z = false) l -> List.filter f l = [].
Proof.
  induction 1 as [|z l Hz _ IH]; simpl; [reflexivity|]. rewrite Hz. exact IH.
Qed.

(** What [get_hosted_zone_id] does with the zones the filter kept. *)
Lemma get_hosted_zone_id_filter host :
  get_hosted_zone_id tldextract_extract self (Some host) =
  match List.filter (domain_matches_hosted_zone (registrable host)) zones with
  | [] => inl IndexError
  | zone :: _ =>
      match zone_Id zone with
      | None => inl AttributeError
      | Some zone_id_string => get_zone_id_from_id_string zone_id_string
      end
  end.
Proof. reflexivity. Qed.

Lemma get_hosted_zone_id_first host pre zone post :
  zones = pre ++ zone :: post ->
  Forall (fun z => zone_Name z <> Some (registrable host +:+ ".")) pre ->
  zone_Name zone = Some (registrable host +:+ ".") ->
  get_hosted_zone_id tldextract_extract self (Some host) =
  match zone_Id zone with
  | None => inl AttributeError
  | Some zone_id_string => get_zone_id_from_id_string zone_id_string
  end.
Proof.
  intros Hzones Hpre Hzone.
  rewrite get_hosted_zone_id_filter, Hzones, filter_first_match; [reflexivity| |].
  - eapply Forall_impl; [exact Hpre|].
    intros z Hz. apply domain_matches_hosted_zone_false, Hz.
  - apply domain_matches_hosted_zone_true, Hzone.
Qed.

(** C5: the registrable domain of the record name is [domain.suffix] of what
    [tldextract] extracts; a returned zone id is the id of a cached zone
    whose [Name] is that domain followed by a dot; a zone id is returned as
    soon as such a zone is cached (and the cached zones carry an [Id]).  With
    the zones ["example.com."] and ["other.com."] and the record name
    ["www.example.com"], the id is that of the ["example.com."] zone. *)
Theorem get_hosted_zone_id_selects_registrable_zone (host : string) :
  get_domain_from_host tldextract_extract host = registrable host
  /\ (forall zone_id,
        get_hosted_zone_id tldextract_extract self (Some host) = inr zone_id ->
        exists zone zone_id_string,
          zone ∈ zones
          /\ zone_Name zone = Some (registrable host +:+ ".")
          /\ zone_Id zone = Some zone_id_string
          /\ get_zone_id_from_id_string zone_id_string = inr zone_id)
  /\ ((exists zone, zone ∈ zones
                    /\ zone_Name zone = Some (registrable host +:+ ".")) ->
      (forall zone, zone ∈ zones -> is_Some (zone_Id zone)) ->
      exists zone_id,
        get_hosted_zone_id tldextract_extract self (Some host) = inr zone_id)
  /\ (domain (tldextract_extract "www.example.com") = "example" ->
      suffix (tldextract_extract "www.example.com") = "com" ->
      forall primary id1 id2,
        get_hosted_zone_id tldextract_extract
          {| self_domain := primary;
             route53_zones :=
               {| HostedZones :=
                    [ {| zone_Name := Some "example.com."; zone_Id := Some id1 |};
                      {| zone_Name := Some "other.com."; zone_Id := Some id2 |} ] |} |}
          (Some "www.example.com")
        = get_zone_id_from_id_string id1).
Proof.
  split; [reflexivity|]. split; [|split].
  - intros zone_id. rewrite get_hosted_zone_id_filter.
    destruct (List.filter _ zones) as [|zone rest] eqn:E; [discriminate|].
    assert (In zone (List.filter (domain_matches_hosted_zone (registrable host)) zones))
      as Hin by (rewrite E; left; reflexivity).
    apply filter_In in Hin as [Hin Hmatch].
    destruct (zone_Id zone) as [s|] eqn:Hid; [|discriminate].
    intros Hres. exists zone, s. repeat split; try assumption.
    + apply list_elem_of_In, Hin.
    + apply domain_matches_hosted_zone_true, Hmatch.
  - intros (zone & Hin & Hname) Hids. rewrite get_hosted_zone_id_filter.
    destruct (List.filter _ zones) as [|z rest] eqn:E.
    + exfalso.
      assert (In zone (List.filter (domain_matches_hosted_zone (registrable host)) zones))
        as Hz.
      { apply filter_In. split; [apply list_elem_of_In, Hin|].
        apply domain_matches_hosted_zone_true, Hname. }
      rewrite E in Hz. destruct Hz.
    + assert (In z (List.filter (domain_matches_hosted_zone (registrable host)) zones))
        as Hz by (rewrite E; left; reflexivity).
      apply filter_In in Hz as [Hz _]. apply list_elem_of_In in Hz.
      destruct (Hids z Hz) as [s ->]. apply get_zone_id_from_id_string_total.
  - intros Hd Hs primary id1 id2.
    unfold get_hosted_zone_id, get_domain_from_host. rewrite Hd, Hs. reflexivity.
Qed.

(** C6: when no cached zone is named after the registrable domain of the
    record name, the lookup raises ([target_record[0]] on the empty list, an
    [IndexError]) and returns no zone id. *)
Theorem get_hosted_zone_id_no_zone (host : string) :
  (forall zone, zone ∈ zones ->
                zone_Name zone <> Some (registrable host +:+ ".")) ->
  get_hosted_zone_id tldextract_extract self (Some host) = inl IndexError
  /\ forall zone_id,
       get_hosted_zone_id tldextract_extract self (Some host) <> inr zone_id.
Proof.
  intros Hnone.
  assert (get_hosted_zone_id tldextract_extract self (Some host) = inl IndexError)
    as Hraise.
  { rewrite get_hosted_zone_id_filter, filter_no_match; [reflexivity|].
    apply Forall_forall. intros z Hz.
    apply domain_matches_hosted_zone_false, Hnone, Hz. }
  split; [exact Hraise|]. intros zone_id. rewrite Hraise. discriminate.
Qed.

(** C7: when several cached zones are named after the registrable domain,
    the zone id returned is the one of the first of them in listing order:
    what follows the last ['/'] of that zone's [Id] (the whole [Id] when it
    has no ['/']), whatever the [Id] of the later zones. *)
Theorem get_hosted_zone_id_first_match
    (host : string) pre zone post zone_id_string :
  zones = pre ++ zone :: post ->
  Forall (fun z => zone_Name z <> Some (registrable host +:+ ".")) pre ->
  zone_Name zone = Some (registrable host +:+ ".") ->
  (exists other, other ∈ post
                 /\ zone_Name other = Some (registrable host +:+ ".")) ->
  zone_Id zone = Some zone_id_string ->
  (forall a b,
      zone_id_string = a +:+ "/" +:+ b ->
      "/"%char ∉ list_ascii_of_string b ->
      get_hosted_zone_id tldextract_extract self (Some host) = inr b)
  /\ ("/"%char ∉ list_ascii_of_string zone_id_string ->
      get_hosted_zone_id tldextract_extract self (Some host) = inr zone_id_string).
Proof.
  intros Hzones Hpre Hzone _ Hid.
  rewrite (get_hosted_zone_id_first host pre zone post Hzones Hpre Hzone), Hid.
  split.
  - intros a b -> Hb. apply get_zone_id_from_id_string_after_slash, Hb.
  - apply get_zone_id_from_id_string_no_slash.
Qed.

(** C10: for the zone the lookup matched (the first cached zone named after
    the registrable domain), the id returned is what follows the last ['/']
    of the zone's [Id] string, and the whole string when it has no ['/']. *)
Theorem get_hosted_zone_id_after_last_slash
    (host : string) pre zone post zone_id_string :
  zones = pre ++ zone :: post ->
  Forall (fun z => zone_Name z <> Some (registrable host +:+ ".")) pre ->
  zone_Name zone = Some (registrable host +:+ ".") ->
  zone_Id zone = Some zone_id_string ->
  (forall a b,
      zone_id_string = a +:+ "/" +:+ b ->
      "/"%char ∉ list_ascii_of_string b ->
      get_hosted_zone_id tldextract_extract self (Some host) = inr b)
  /\ ("/"%char ∉ list_ascii_of_string zone_id_string ->
      get_hosted_zone_id tldextract_extract self (Some host) = inr zone_id_string)
  /\ get_zone_id_from_id_string "/hostedzone/Z123" = inr "Z123".
Proof.
  intros Hzones Hpre Hzone Hid.
  rewrite (get_hosted_zone_id_first host pre zone post Hzones Hpre Hzone), Hid.
  split; [|split].
  - intros a b -> Hb. apply get_zone_id_from_id_string_after_slash, Hb.
  - apply get_zone_id_from_id_string_no_slash.
  - reflexivity.
Qed.

End ZoneLookup.

(** ** Deduplicating the changes *)

Section Unique.

Context {A : Type} `{EqDecision A}.

Implicit Types (l : list A) (x : A).

Lemma unique_snoc l x : unique (l ++ [x]) = append_if_new (unique l) x.
Proof. unfold unique. rewrite fold_left_app. reflexivity. Qed.

Lemma elem_of_append_if_new l x y : y ∈ append_if_new l x <-> y ∈ l \/ y = x.
Proof.
  unfold append_if_new. destruct (decide (x ∈ l)) as [Hin|Hnot].
  - split; [auto|]. intros [?| ->]; assumption.
  - rewrite elem_of_app, list_elem_of_singleton. reflexivity.
Qed.

Lemma elem_of_unique l x : x ∈ unique l <-> x ∈ l.
Proof.
  induction l as [|y l IH] using rev_ind.
  - reflexivity.
  - rewrite unique_snoc, elem_of_append_if_new, elem_of_app, IH,
      list_elem_of_singleton. reflexivity.
Qed.

Lemma NoDup_unique l : NoDup (unique l).
Proof.
  induction l as [|y l IH] using rev_ind.
  - constructor.
  - rewrite unique_snoc. unfold append_if_new.
    destruct (decide (y ∈ unique l)) as [Hin|Hnot]; [exact IH|].
    apply NoDup_app. split; [exact IH|]. split.
    + intros z Hz Hzy. apply list_elem_of_singleton in Hzy as ->. auto.
    + apply NoDup_singleton.
Qed.





End Unique.

(** Deduplicating commutes with an injective relabelling. *)
Lemma unique_fmap {A B} `{EqDecision A, EqDecision B} (f : A -> B) (l : list A) :
  Inj (=) (=) f -> unique (f <$> l) = f <$> unique l.
Proof.
  intros Hinj. induction l as [|y l IH] using rev_ind; [reflexivity|].
  rewrite fmap_app. simpl. rewrite !unique_snoc, IH. unfold append_if_new.
  destruct (decide (f y ∈ f <$> unique l)) as [Hin|Hnot];
    destruct (decide (y ∈ unique l)) as [Hin'|Hnot'].
  - reflexivity.
  - exfalso. apply list_elem_of_fmap in Hin as (z & Hz & Hzin).
    apply Hinj in Hz as ->. contradiction.
  - exfalso. apply Hnot, list_elem_of_fmap. eauto.
  - rewrite fmap_app. reflexivity.
Qed.

(** ** Building the change set *)

Lemma only_printed_refl w : only_printed w w.
Proof. repeat split. exists []. rewrite app_nil_r. reflexivity. Qed.

Lemma only_printed_trans w1 w2 w3 :
  only_printed w1 w2 -> only_printed w2 w3 -> only_printed w1 w3.
Proof.
  intros (Ha & Hd & Hr & Hs & l1 & H1) (Ha' & Hd' & Hr' & Hs' & l2 & H2).
  repeat split; try congruence.
  exists (l1 ++ l2). rewrite H2, H1, app_assoc. reflexivity.
Qed.

Lemma only_printed_print line w : only_printed w (snd (print line w)).
Proof. repeat split. exists [line]. reflexivity. Qed.

Lemma change_of_triple_inj : Inj (=) (=) change_of_triple.
Proof. intros [[a b] c] [[a' b'] c'] Heq. injection Heq as -> -> ->. reflexivity. Qed.

Lemma create_dns_record_set_run record r w :
  dvo_ResourceRecord record = Some r ->
  exists w',
    create_dns_record_set record w
      = (inr (change_of_triple (get_resource_record_data r)), w')
    /\ only_printed w w'.
Proof.
  intros Hr. unfold create_dns_record_set. rewrite Hr. simpl.
  eexists. split; [reflexivity|]. apply only_printed_print.
Qed.

Lemma list_comprehension_create records rrs w :
  mapM dvo_ResourceRecord records = Some rrs ->
  exists w',
    list_comprehension create_dns_record_set records w
      = (inr (change_of_triple <$> (get_resource_record_data <$> rrs)), w')
    /\ only_printed w w'.
Proof.
  intros Hall. apply mapM_Some in Hall. revert w.
  induction Hall as [|record r records rrs Hr _ IH]; intros w.
  - exists w. split; [reflexivity|apply only_printed_refl].
  - destruct (create_dns_record_set_run record r w Hr) as (w1 & Hrun & Hp1).
    destruct (IH w1) as (w2 & Hrest & Hp2).
    exists w2. split; [|eapply only_printed_trans; eassumption].
    simpl. unfold bind at 1. rewrite Hrun. unfold bind at 1. rewrite Hrest.
    reflexivity.
Qed.

Lemma build_change_set_run records rrs w :
  mapM dvo_ResourceRecord records = Some rrs ->
  exists w',
    build_change_set records w
      = (inr (change_of_triple <$> unique (get_resource_record_data <$> rrs)), w')
    /\ only_printed w w'.
Proof.
  intros Hall. destruct (list_comprehension_create records rrs w Hall) as (w' & Hrun & Hp).
  exists w'. split; [|exact Hp].
  unfold build_change_set, bind. rewrite Hrun. unfold ret.
  unfold remove_duplicate_upsert_records.
  change (fold_left append_if_new ?l []) with (unique l).
  rewrite (unique_fmap _ _ change_of_triple_inj). reflexivity.
Qed.

(** A validation option without its [ResourceRecord] makes the
    comprehension raise. *)
Lemma create_dns_record_set_missing record w :
  dvo_ResourceRecord record = None ->
  create_dns_record_set record w = (inl AttributeError, w).
Proof. intros Hr. unfold create_dns_record_set. rewrite Hr. reflexivity. Qed.


(** ** Requesting the certificate *)

Section Requests.

Variable acm_request_certificate : world -> kwargs -> exn + BotoResponse.
Variable response_succeeded : BotoResponse -> bool.
Variable self : DNSValidatedACMCertClient.

Let request_certificate' :=
  request_certificate acm_request_certificate response_succeeded self.

(** The method is one call of the CA with [request_kwargs], then the test of
    the response. *)
Lemma request_certificate_run sans w :
  request_certificate' sans w =
  match acm_request_certificate w (request_kwargs self sans) with
  | inl e => (inl e, requested (request_kwargs self sans) w)
  | inr response =>
      (inr (if response_succeeded response then CertificateArn response else None),
       requested (request_kwargs self sans) w)
  end.
Proof.
  unfold request_certificate', request_certificate, bind,
    call_request_certificate, request_kwargs.
  destruct sans as [|name sans]; simpl;
    (destruct (acm_request_certificate w _) as [e|response]; [reflexivity|]);
    destruct (response_succeeded response); reflexivity.
Qed.

(** C4: the request carries [SubjectAlternativeNames] exactly when the list
    of alternative names is not empty; with the empty list it is the primary
    domain and the DNS validation method, and nothing else. *)
Theorem request_certificate_alternative_names sans w :
  exists kw,
    acm_requests (snd (request_certificate' sans w)) = acm_requests w ++ [kw]
    /\ ("SubjectAlternativeNames" ∈ kw.*1 <-> sans <> [])
    /\ (sans = [] ->
        kw = [ ("DomainName", KStr (self_domain self));
               ("ValidationMethod", KStr "DNS") ])
    /\ (sans <> [] ->
        kw = [ ("DomainName", KStr (self_domain self));
               ("ValidationMethod", KStr "DNS");
               ("SubjectAlternativeNames", KList sans) ]).
Proof.
  exists (request_kwargs self sans). split.
  - rewrite request_certificate_run.
    destruct (acm_request_certificate w _); reflexivity.
  - destruct sans as [|name sans]; simpl.
    + split; [|split; [reflexivity|congruence]].
      split; [|congruence]. intros Hin. elem_of_cases Hin discriminate.
    + split; [|split; [discriminate|reflexivity]].
      split; [discriminate|]. intros _.
      repeat constructor.
Qed.

(** C3, as the code has it: a response that does not signal success raises
    nothing, the method returns [None] (no handle); what the CA client
    raises by itself reaches the caller, and in both cases the request was
    the only thing done. *)
Theorem request_certificate_rejected sans w :
  (forall response,
      acm_request_certificate w (request_kwargs self sans) = inr response ->
      response_succeeded response = false ->
      request_certificate' sans w
        = (inr None, requested (request_kwargs self sans) w))
  /\ (forall e,
        acm_request_certificate w (request_kwargs self sans) = inl e ->
        request_certificate' sans w
          = (inl e, requested (request_kwargs self sans) w)).
Proof.
  split.
  - intros response Hresponse Hfailed.
    rewrite request_certificate_run, Hresponse, Hfailed. reflexivity.
  - intros e He. rewrite request_certificate_run, He. reflexivity.
Qed.

End Requests.

(** ** Waiting for the validation *)

Section Waiting.

Variable acm_describe_certificate : world -> string -> exn + DescribeResponse.

Let get_status := get_certificate_status acm_describe_certificate.
Let loop := wait_loop acm_describe_certificate.
Let wait := wait_for_certificate_validation acm_describe_certificate.

Lemma get_certificate_status_run arn w certificate status :
  acm_describe_certificate w arn = inr {| dr_Certificate := Some certificate |} ->
  Status certificate = Some status ->
  get_status arn w = (inr status, described arn w).
Proof.
  intros Hdescribe Hstatus.
  unfold get_status, get_certificate_status, bind, call_describe_certificate.
  rewrite Hdescribe. simpl. rewrite Hstatus. reflexivity.
Qed.

Lemma status_at_poll_run w0 k status arn w :
  status_at_poll acm_describe_certificate w0 k status ->
  length (describe_calls w) = (length (describe_calls w0) + k)%nat ->
  get_status arn w = (inr status, described arn w).
Proof.
  intros Hpoll Hlen. destruct (Hpoll w arn Hlen) as (certificate & Hd & Hs).
  eapply get_certificate_status_run; eassumption.
Qed.

(** One turn of the loop while the certificate is pending and the time is
    not over: a line, a sleep, a poll. *)
Lemma wait_loop_pending fuel arn sleep_time timeout elapsed w status :
  0 <= sleep_time -> elapsed <= timeout ->
  get_status arn
    (slept sleep_time
       (printed (arn +:+ ": Waiting " +:+ pretty sleep_time
                 +:+ "s for validation, " +:+ pretty elapsed +:+ "s elapsed...") w))
    = (inr status,
       described arn
         (slept sleep_time
            (printed (arn +:+ ": Waiting " +:+ pretty sleep_time
                      +:+ "s for validation, " +:+ pretty elapsed
                      +:+ "s elapsed...") w))) ->
  loop (S fuel) arn sleep_time timeout "PENDING_VALIDATION" elapsed w =
  loop fuel arn sleep_time timeout status (elapsed + sleep_time)
    (described arn
       (slept sleep_time
          (printed (arn +:+ ": Waiting " +:+ pretty sleep_time
                    +:+ "s for validation, " +:+ pretty elapsed
                    +:+ "s elapsed...") w))).
Proof.
  intros Hsleep Helapsed Hstatus. unfold loop. simpl.
  destruct (decide ("PENDING_VALIDATION" = "PENDING_VALIDATION")); [|congruence].
  destruct (Z.gtb_spec elapsed timeout) as [Hgt|_]; [lia|].
  unfold bind at 1. unfold print at 1. unfold bind at 1. unfold time_sleep at 1.
  destruct (decide (sleep_time < 0)); [lia|].
  unfold get_status in Hstatus. rewrite Hstatus. reflexivity.
Qed.

Lemma wait_loop_timeout fuel arn sleep_time timeout elapsed w :
  timeout < elapsed ->
  loop (S fuel) arn sleep_time timeout "PENDING_VALIDATION" elapsed w =
  Some (inl (Exception ("Timeout (" +:+ pretty timeout
                        +:+ "s) reached for certificate validation")), w).
Proof.
  intros Hover. unfold loop. simpl.
  destruct (decide ("PENDING_VALIDATION" = "PENDING_VALIDATION")); [|congruence].
  destruct (Z.gtb_spec elapsed timeout) as [_|Hle]; [reflexivity|lia].
Qed.

Lemma wait_loop_done fuel arn sleep_time timeout elapsed w status :
  status <> "PENDING_VALIDATION" ->
  loop (S fuel) arn sleep_time timeout status elapsed w = Some (inr tt, w).
Proof.
  intros Hstatus. unfold loop. simpl.
  destruct (decide (status = "PENDING_VALIDATION")); [contradiction|reflexivity].
Qed.

(** More fuel does not change a result. *)
Lemma wait_loop_fuel_mono fuel fuel' arn sleep_time timeout status elapsed w r :
  (fuel <= fuel')%nat ->
  loop fuel arn sleep_time timeout status elapsed w = Some r ->
  loop fuel' arn sleep_time timeout status elapsed w = Some r.
Proof.
  unfold loop. revert fuel' status elapsed w.
  induction fuel as [|fuel IH]; intros fuel' status elapsed w Hle; [discriminate|].
  destruct fuel' as [|fuel']; [lia|]. simpl.
  destruct (decide (status = "PENDING_VALIDATION")); [|auto].
  destruct (elapsed >? timeout); [auto|].
  match goal with |- context [match ?m with _ => _ end] => destruct m as [[err|st] w1] end;
    [auto|].
  apply IH. lia.
Qed.

(** C8: with the statuses PENDING_VALIDATION, PENDING_VALIDATION, ISSUED, a
    sleep time of 5 and a timeout of 600, the wait returns normally after
    three polls and exactly two sleeps. *)
Theorem wait_returns_after_two_sleeps arn w fuel :
  status_at_poll acm_describe_certificate w 0 "PENDING_VALIDATION" ->
  status_at_poll acm_describe_certificate w 1 "PENDING_VALIDATION" ->
  status_at_poll acm_describe_certificate w 2 "ISSUED" ->
  (3 <= fuel)%nat ->
  exists w',
    wait fuel arn 5 600 w = Some (inr tt, w')
    /\ sleeps w' = sleeps w ++ [5; 5]
    /\ describe_calls w' = describe_calls w ++ [arn; arn; arn].
Proof.
  intros H0 H1 H2 Hfuel.
  destruct fuel as [|[|[|fuel]]]; try lia.
  unfold wait, wait_for_certificate_validation.
  fold get_status. fold loop.
  rewrite (status_at_poll_run w 0 _ arn w H0) by lia.
  erewrite wait_loop_pending; [|lia|lia|].
  2:{ eapply status_at_poll_run; [exact H1|]. simpl. rewrite length_app. simpl. lia. }
  erewrite wait_loop_pending; [|lia|lia|].
  2:{ eapply status_at_poll_run; [exact H2|]. simpl. rewrite !length_app. simpl. lia. }
  rewrite wait_loop_done by discriminate.
  eexists. split; [reflexivity|]. simpl. rewrite <- !app_assoc. split; reflexivity.
Qed.

(** C2, as the code has it: with a status that stays PENDING_VALIDATION, a
    timeout of 10 and a sleep time of 5, the elapsed time must exceed the
    timeout; the wait raises its timeout exception after the fourth poll and
    three sleeps. *)
Theorem wait_times_out_after_four_polls arn w fuel :
  (forall k, status_at_poll acm_describe_certificate w k "PENDING_VALIDATION") ->
  (4 <= fuel)%nat ->
  exists w',
    wait fuel arn 5 10 w
      = Some (inl (Exception "Timeout (10s) reached for certificate validation"), w')
    /\ describe_calls w' = describe_calls w ++ [arn; arn; arn; arn]
    /\ sleeps w' = sleeps w ++ [5; 5; 5].
Proof.
  intros Hpending Hfuel.
  destruct fuel as [|[|[|[|fuel]]]]; try lia.
  unfold wait, wait_for_certificate_validation.
  fold get_status. fold loop.
  rewrite (status_at_poll_run w 0 _ arn w (Hpending 0%nat)) by lia.
  erewrite wait_loop_pending; [|lia|lia|].
  2:{ eapply status_at_poll_run; [exact (Hpending 1%nat)|].
      simpl. rewrite length_app. simpl. lia. }
  erewrite wait_loop_pending; [|lia|lia|].
  2:{ eapply status_at_poll_run; [exact (Hpending 2%nat)|].
      simpl. rewrite !length_app. simpl. lia. }
  erewrite wait_loop_pending; [|lia|lia|].
  2:{ eapply status_at_poll_run; [exact (Hpending 3%nat)|].
      simpl. rewrite !length_app. simpl. lia. }
  rewrite wait_loop_timeout by lia.
  eexists. split; [reflexivity|]. simpl. rewrite <- !app_assoc. split; reflexivity.
Qed.

End Waiting.

(** ** Submitting the changes *)

Section Submitting.

Variable acm_describe_certificate : world -> string -> exn + DescribeResponse.
Variable r53_change_resource_record_sets :
  world -> string -> list Change -> exn + BotoResponse.
Variable tldextract_extract : string -> ExtractResult.
Variable response_succeeded : BotoResponse -> bool.
Variable repr_response : BotoResponse -> string.
Variable self : DNSValidatedACMCertClient.

Let submit :=
  submit_change r53_change_resource_record_sets tldextract_extract
    response_succeeded repr_response self.
Let zone_of := get_hosted_zone_id tldextract_extract self.

(** The DNS client answers every call with a response, successful or not:
    it raises nothing by itself. *)
Hypothesis r53_answers :
  forall w zone_id changes,
    exists response, r53_change_resource_record_sets w zone_id changes = inr response.

(** One change whose zone is found: one call, and one line that tells how
    the service answered. *)
Lemma submit_change_run change zone_id w :
  zone_of (Name (change_ResourceRecordSet change)) = inr zone_id ->
  exists response line,
    r53_change_resource_record_sets w zone_id [change] = inr response
    /\ line = (if response_succeeded response
               then "Successfully created Route 53 record set for "
                    +:+ py_str (Name (change_ResourceRecordSet change))
               else "Failed to create Route53 record set: "
                    +:+ repr_response response)
    /\ submit change w
       = (inr tt,
          printed line
            (submitted {| call_HostedZoneId := zone_id;
                          call_Changes := [change];
                          call_outcome := inr response |} w)).
Proof.
  intros Hzone. destruct (r53_answers w zone_id [change]) as [response Hresponse].
  exists response. eexists. split; [exact Hresponse|]. split; [reflexivity|].
  unfold submit, submit_change, bind, lift, call_change_resource_record_sets.
  unfold zone_of in Hzone. rewrite Hzone, Hresponse.
  destruct (response_succeeded response); reflexivity.
Qed.

(** The loop over changes whose zones are all found: every change is
    submitted, in order, whatever the answers; each failed answer has its
    line. *)
Lemma for_each_submit changes w :
  (forall change, change ∈ changes ->
     exists zone_id, zone_of (Name (change_ResourceRecordSet change)) = inr zone_id) ->
  exists w' calls lines,
    for_each changes submit w = (inr tt, w')
    /\ r53_calls w' = r53_calls w ++ calls
    /\ stdout w' = stdout w ++ lines
    /\ call_Changes <$> calls = (fun change => [change]) <$> changes
    /\ (forall call response,
          call ∈ calls -> call_outcome call = inr response ->
          response_succeeded response = false ->
          ("Failed to create Route53 record set: " +:+ repr_response response) ∈ lines).
Proof.
  revert w. induction changes as [|change changes IH]; intros w Hzones.
  - exists w, [], []. rewrite !app_nil_r. repeat split.
    intros call response Hin. inversion Hin.
  - destruct (Hzones change) as [zone_id Hzone]; [left|].
    destruct (submit_change_run change zone_id w Hzone)
      as (response & line & Hresponse & Hline & Hrun).
    destruct (IH (printed line
                    (submitted {| call_HostedZoneId := zone_id;
                                  call_Changes := [change];
                                  call_outcome := inr response |} w)))
      as (w' & calls & lines & Hrest & Hcalls & Hlines & Hchanges & Hfailed).
    { intros c Hc. apply Hzones. right. exact Hc. }
    exists w', ({| call_HostedZoneId := zone_id; call_Changes := [change];
                   call_outcome := inr response |} :: calls), (line :: lines).
    split; [|split; [|split; [|split]]].
    + simpl. unfold bind. rewrite Hrun. exact Hrest.
    + rewrite Hcalls. simpl. rewrite <- app_assoc. reflexivity.
    + rewrite Hlines. simpl. rewrite <- app_assoc. reflexivity.
    + rewrite !fmap_cons, Hchanges. reflexivity.
    + intros call resp Hin Hout Hfail.
      apply elem_of_cons in Hin as [->|Hin].
      * simpl in Hout. injection Hout as <-. rewrite Hfail in Hline.
        rewrite Hline. left.
      * right. eapply Hfailed; eassumption.
Qed.

(** C9: when the validation records all have their data and their zones,
    every change of the deduplicated sequence is submitted, in order,
    whatever the DNS service answers; an answer that does not signal success
    is printed as a failure and the loop goes on with the next change. *)
Theorem create_domain_validation_records_best_effort arn w records rrs :
  fst (get_domain_validation_records acm_describe_certificate arn w) = inr records ->
  mapM dvo_ResourceRecord records = Some rrs ->
  (forall r, r ∈ rrs -> exists zone_id, zone_of (rr_Name r) = inr zone_id) ->
  exists w' calls,
    create_domain_validation_records acm_describe_certificate
      r53_change_resource_record_sets tldextract_extract response_succeeded
      repr_response self arn w = (inr tt, w')
    /\ r53_calls w' = r53_calls w ++ calls
    /\ call_Changes <$> calls
       = (fun change => [change])
           <$> remove_duplicate_upsert_records
                 (change_of_triple <$> (get_resource_record_data <$> rrs))
    /\ (forall call response,
          call ∈ calls -> call_outcome call = inr response ->
          response_succeeded response = false ->
          ("Failed to create Route53 record set: " +:+ repr_response response)
            ∈ stdout w').
Proof.
  intros Hrecords Hall Hzones.
  unfold create_domain_validation_records.
  unfold bind at 1.
  destruct (get_domain_validation_records acm_describe_certificate arn w)
    as [[e|records'] w1] eqn:Hget; simpl in Hrecords; [discriminate|].
  injection Hrecords as ->.
  assert (r53_calls w1 = r53_calls w) as Hsame.
  { unfold get_domain_validation_records, bind, call_describe_certificate in Hget.
    destruct (acm_describe_certificate w arn); injection Hget as _ <-; reflexivity. }
  destruct (build_change_set_run records rrs w1 Hall) as (w2 & Hbuild & Hprinted).
  unfold bind at 1. rewrite Hbuild.
  destruct (for_each_submit
              (change_of_triple <$> unique (get_resource_record_data <$> rrs)) w2)
    as (w' & calls & lines & Hrun & Hcalls & Hlines & Hchanges & Hfailed).
  { intros change Hin. apply list_elem_of_fmap in Hin as (t & -> & Ht).
    apply elem_of_unique, list_elem_of_fmap in Ht as (r & -> & Hr).
    destruct (Hzones r Hr) as [zone_id Hzone]. exists zone_id. exact Hzone. }
  exists w', calls. split; [exact Hrun|].
  destruct Hprinted as (_ & _ & Hr53 & _ & _).
  split; [rewrite Hcalls; congruence|]. split.
  - rewrite Hchanges. unfold remove_duplicate_upsert_records.
    change (fold_left append_if_new ?l []) with (unique l).
    rewrite (unique_fmap _ _ change_of_triple_inj). reflexivity.
  - intros call response Hin Hout Hfail. rewrite Hlines.
    apply elem_of_app. right. eapply Hfailed; eassumption.
Qed.

End Submitting.

(** ** Termination of the wait *)

(** With a positive sleep time the loop ends, whatever the CA answers: the
    elapsed time grows at every turn until it exceeds the timeout. *)
Lemma wait_loop_terminates acm_describe_certificate (n : nat)
    arn sleep_time timeout status elapsed w :
  0 < sleep_time -> timeout - elapsed < Z.of_nat n ->
  exists r,
    wait_loop acm_describe_certificate (S n) arn sleep_time timeout status elapsed w
    = Some r.
Proof.
  intros Hsleep. revert status elapsed w.
  induction n as [|n IH]; intros status elapsed w Hleft.
  - simpl. destruct (decide (status = "PENDING_VALIDATION")); [|eauto].
    destruct (Z.gtb_spec elapsed timeout); [eauto|lia].
  - cbn [wait_loop].
    destruct (decide (status = "PENDING_VALIDATION")); [|eauto].
    destruct (elapsed >? timeout); [eauto|].
    match goal with
    | |- context [match ?m with _ => _ end] => destruct m as [[err|status'] w1]
    end; [eauto|].
    apply IH. lia.
Qed.

(** X9: with a positive sleep time the wait ends, in a return or in an
    exception, whatever the CA answers and however long it stays pending. *)
Lemma wait_for_certificate_validation_terminates acm_describe_certificate
    arn sleep_time timeout w :
  0 < sleep_time ->
  exists fuel r,
    wait_for_certificate_validation acm_describe_certificate fuel arn
      sleep_time timeout w = Some r.
Proof.
  intros Hsleep. exists (S (Z.to_nat (timeout + 1))).
  unfold wait_for_certificate_validation.
  destruct (get_certificate_status acm_describe_certificate arn w)
    as [[err|status] w1]; [eauto|].
  apply wait_loop_terminates; lia.
Qed.

(** ** The theorems at concrete inputs *)


Lemma get_hosted_zone_id_sample :
  get_hosted_zone_id sample_extract sample_client (Some "www.example.com")
  = inr "Z123".
Proof.
  exact (proj2 (proj2 (proj2
           (get_hosted_zone_id_selects_registrable_zone
              sample_extract sample_client "www.example.com")))
           eq_refl eq_refl "www.example.com" "/hostedzone/Z123" "/hostedzone/Z456").
Defined.

Lemma get_hosted_zone_id_no_zone_sample :
  get_hosted_zone_id sample_extract sample_client (Some "www.nowhere.org")
  = inl IndexError
  /\ forall zone_id,
       get_hosted_zone_id sample_extract sample_client (Some "www.nowhere.org")
       <> inr zone_id.
Proof.
  apply (get_hosted_zone_id_no_zone sample_extract sample_client "www.nowhere.org").
  intros zone Hin. elem_of_cases Hin discriminate.
Defined.

Lemma get_hosted_zone_id_first_match_sample :
  get_hosted_zone_id sample_extract overlapping_client (Some "www.example.com")
  = inr "ZPUB".
Proof.
  refine (proj1
            (get_hosted_zone_id_first_match sample_extract overlapping_client
               "www.example.com"
               [ {| zone_Name := Some "other.com.";
                    zone_Id := Some "/hostedzone/Z456" |} ]
               {| zone_Name := Some "example.com.";
                  zone_Id := Some "/hostedzone/ZPUB" |}
               [ {| zone_Name := Some "example.com.";
                    zone_Id := Some "/hostedzone/ZPRIV" |} ]
               "/hostedzone/ZPUB" eq_refl _ eq_refl _ eq_refl)
            "/hostedzone" "ZPUB" eq_refl _).
  - constructor; [discriminate|constructor].
  - eexists. split; [left|reflexivity].
  - simpl. intros Hin. elem_of_cases Hin discriminate.
Defined.

Lemma get_hosted_zone_id_after_last_slash_sample :
  get_hosted_zone_id sample_extract sample_client (Some "www.example.com")
  = inr "Z123".
Proof.
  refine (proj1
            (get_hosted_zone_id_after_last_slash sample_extract sample_client
               "www.example.com" []
               {| zone_Name := Some "example.com.";
                  zone_Id := Some "/hostedzone/Z123" |}
               [ {| zone_Name := Some "other.com.";
                    zone_Id := Some "/hostedzone/Z456" |} ]
               "/hostedzone/Z123" eq_refl _ eq_refl eq_refl)
            "/hostedzone" "Z123" eq_refl _).
  - constructor.
  - simpl. intros Hin. elem_of_cases Hin discriminate.
Defined.

Lemma wait_returns_after_two_sleeps_sample :
  exists w',
    wait_for_certificate_validation issued_on_third_poll 3 "arn" 5 600 initial_world
      = Some (inr tt, w')
    /\ sleeps w' = sleeps initial_world ++ [5; 5]
    /\ describe_calls w' = describe_calls initial_world ++ ["arn"; "arn"; "arn"].
Proof.
  apply (wait_returns_after_two_sleeps issued_on_third_poll "arn" initial_world 3);
    try (intros w arn Hlen; eexists;
         split; [unfold issued_on_third_poll; rewrite Hlen|]; reflexivity).
  lia.
Defined.

Lemma wait_times_out_after_four_polls_sample :
  exists w',
    wait_for_certificate_validation always_pending 4 "arn" 5 10 initial_world
      = Some (inl (Exception "Timeout (10s) reached for certificate validation"), w')
    /\ describe_calls w' = describe_calls initial_world ++ ["arn"; "arn"; "arn"; "arn"]
    /\ sleeps w' = sleeps initial_world ++ [5; 5; 5].
Proof.
  apply (wait_times_out_after_four_polls always_pending "arn" initial_world 4).
  - intros k w arn _. eexists. split; reflexivity.
  - lia.
Defined.

(** C2 as it is worded fails: with a status that stays PENDING_VALIDATION, a
    timeout of 10 and a sleep time of 5, no run raises when the certificate
    has been polled twice; at the second poll the elapsed time is 5. *)
Lemma wait_no_timeout_after_second_poll :
  ~ exists fuel e w',
      wait_for_certificate_validation always_pending fuel "arn" 5 10 initial_world
        = Some (inl e, w')
      /\ length (describe_calls w') = 2%nat.
Proof.
  intros (fuel & e & w' & Hrun & Hpolls).
  destruct fuel as [|[|[|[|fuel]]]]; vm_compute in Hrun; try discriminate.
  injection Hrun as _ <-. discriminate.
Qed.

Lemma request_certificate_rejected_sample :
  request_certificate acm_rejects response_succeeded_2xx sample_client []
    initial_world
  = (inr None, requested (request_kwargs sample_client []) initial_world).
Proof.
  exact (proj1 (request_certificate_rejected acm_rejects response_succeeded_2xx
                  sample_client [] initial_world)
           sample_rejected eq_refl eq_refl).
Defined.

(** C3 as it is worded fails: the CA answers with status 500, which does not
    signal success, and the method raises nothing: it returns [None]. *)
Lemma request_certificate_rejected_raises_nothing :
  acm_rejects initial_world (request_kwargs sample_client []) = inr sample_rejected
  /\ response_succeeded_2xx sample_rejected = false
  /\ fst (request_certificate acm_rejects response_succeeded_2xx sample_client []
            initial_world) = inr None
  /\ forall e,
       fst (request_certificate acm_rejects response_succeeded_2xx sample_client []
              initial_world) <> inl e.
Proof. repeat split. discriminate. Qed.

Lemma create_domain_validation_records_sample :
  exists w' calls,
    create_domain_validation_records describes_options r53_first_fails
      sample_extract response_succeeded_2xx sample_repr sample_client "arn"
      initial_world = (inr tt, w')
    /\ r53_calls w' = r53_calls initial_world ++ calls
    /\ call_Changes <$> calls
       = (fun change => [change])
           <$> remove_duplicate_upsert_records
                 (change_of_triple <$> (get_resource_record_data <$> sample_records))
    /\ (forall call response,
          call ∈ calls -> call_outcome call = inr response ->
          response_succeeded_2xx response = false ->
          ("Failed to create Route53 record set: " +:+ sample_repr response)
            ∈ stdout w').
Proof.
  apply (create_domain_validation_records_best_effort describes_options
           r53_first_fails sample_extract response_succeeded_2xx sample_repr
           sample_client
           (fun w zone_id changes => ex_intro _ _ eq_refl)
           "arn" initial_world sample_options sample_records).
  - reflexivity.
  - reflexivity.
  - intros r Hin. elem_of_cases Hin ltac:(eexists; reflexivity).
Defined.

(** The run of the sample: the first answer is a failure, it is printed, and
    the second change is submitted all the same. *)
Example create_domain_validation_records_sample_run :
  let w' := snd (create_domain_validation_records describes_options r53_first_fails
                   sample_extract response_succeeded_2xx sample_repr sample_client
                   "arn" initial_world) in
  call_HostedZoneId <$> r53_calls w' = ["Z123"; "Z456"]
  /\ stdout w' =
     [ "Creating CNAME record for _a.www.example.com";
       "Creating CNAME record for _b.api.other.com";
       "Creating CNAME record for _a.www.example.com";
       "Failed to create Route53 record set: {'HTTPStatusCode': 500}";
       "Successfully created Route 53 record set for _b.api.other.com" ].
Proof. vm_compute. split; reflexivity. Qed.

(** The spec's end-to-end example: no alternative names, a single-domain
    request; with one alternative name the field is sent. *)
Example request_certificate_sample_requests :
  acm_requests (snd (request_certificate acm_accepts response_succeeded_2xx
                       sample_client [] initial_world))
  = [ [ ("DomainName", KStr "www.example.com"); ("ValidationMethod", KStr "DNS") ] ]
  /\ request_certificate acm_accepts response_succeeded_2xx sample_client
       ["api.example.com"] initial_world
     = (inr (Some "arn:aws:acm:us-east-1:1:certificate/abc"),
        requested [ ("DomainName", KStr "www.example.com");
                    ("ValidationMethod", KStr "DNS");
                    ("SubjectAlternativeNames", KList ["api.example.com"]) ]
          initial_world).
Proof. split; reflexivity. Qed.

(** The stand-in extractor on the spec's example of a two-label suffix. *)
Example get_domain_from_host_co_uk :
  get_domain_from_host sample_extract "www.example.co.uk" = "example.co.uk".
Proof. reflexivity. Qed.

(** * Further properties *)

(** ** The deduplication by itself *)

Lemma unique_NoDup_id {A} `{EqDecision A} (l : list A) : NoDup l -> unique l = l.
Proof.
  induction l as [|x l IH] using rev_ind; intros Hnd; [reflexivity|].
  apply NoDup_app in Hnd as (Hl & Hx & _).
  rewrite unique_snoc, (IH Hl). unfold append_if_new.
  destruct (decide (x ∈ l)) as [Hin|_]; [|reflexivity].
  exfalso. apply (Hx x Hin). left.
Qed.

Lemma unique_sublist {A} `{EqDecision A} (l : list A) : unique l `sublist_of` l.
Proof.
  induction l as [|x l IH] using rev_ind; [constructor|].
  rewrite unique_snoc. unfold append_if_new.
  destruct (decide (x ∈ unique l)).
  - apply sublist_inserts_r, IH.
  - apply sublist_app; [exact IH|reflexivity].
Qed.

(** X1: deduplicating a second time changes nothing. *)
Theorem remove_duplicate_upsert_records_idempotent (l : list Change) :
  remove_duplicate_upsert_records (remove_duplicate_upsert_records l)
  = remove_duplicate_upsert_records l.
Proof.
  change (unique (unique l) = unique l). apply unique_NoDup_id, NoDup_unique.
Qed.

(** X2: a list without repeated changes is returned as it is. *)
Theorem remove_duplicate_upsert_records_NoDup (l : list Change) :
  NoDup l -> remove_duplicate_upsert_records l = l.
Proof. apply unique_NoDup_id. Qed.

Lemma remove_duplicate_upsert_records_NoDup_sample :
  remove_duplicate_upsert_records sample_changes = sample_changes.
Proof.
  apply (remove_duplicate_upsert_records_NoDup sample_changes).
  apply (bool_decide_unpack (NoDup sample_changes)). vm_compute. exact I.
Defined.

(** X3: the result is a subsequence of the input (nothing is added or
    reordered), so it is no longer; it is empty only for the empty input. *)
Theorem remove_duplicate_upsert_records_sublist (l : list Change) :
  remove_duplicate_upsert_records l `sublist_of` l
  /\ (length (remove_duplicate_upsert_records l) <= length l)%nat
  /\ (remove_duplicate_upsert_records l = [] <-> l = []).
Proof.
  change (remove_duplicate_upsert_records l) with (unique l).
  pose proof (unique_sublist l) as Hsub.
  split; [exact Hsub|]. split; [apply sublist_length, Hsub|].
  split; [|intros ->; reflexivity].
  intros Hnil. destruct l as [|x l]; [reflexivity|].
  assert (x ∈ unique (x :: l)) as Hin by (apply elem_of_unique; left).
  rewrite Hnil in Hin. inversion Hin.
Qed.

(** ** The zone id *)

Lemma py_split_pieces sep s :
  Forall (fun piece => sep ∉ list_ascii_of_string piece) (py_split sep s).
Proof.
  induction s as [|c s IH]; simpl.
  - constructor; [|constructor]. intros Hin. inversion Hin.
  - destruct (decide (c = sep)) as [->|Hne].
    + constructor; [|exact IH]. intros Hin. inversion Hin.
    + destruct (py_split sep s) as [|piece pieces].
      * constructor; [|constructor]. simpl. intros Hin.
        apply elem_of_cons in Hin as [Hin|Hin]; [congruence|inversion Hin].
      * apply Forall_cons in IH as [Hpiece Hpieces].
        constructor; [|exact Hpieces]. simpl. intros Hin.
        apply elem_of_cons in Hin as [Hin|Hin]; [congruence|contradiction].
Qed.

Lemma get_zone_id_from_id_string_has_no_slash s zone_id :
  get_zone_id_from_id_string s = inr zone_id ->
  "/"%char ∉ list_ascii_of_string zone_id.
Proof.
  unfold get_zone_id_from_id_string, py_last_item.
  destruct (last (py_split "/" s)) as [x|] eqn:Hlast; [|discriminate].
  intros Heq. injection Heq as ->.
  apply last_Some in Hlast as [pieces Hpieces].
  pose proof (py_split_pieces "/"%char s) as Hall.
  rewrite Hpieces, Forall_app, Forall_singleton in Hall. exact (proj2 Hall).
Qed.

(** X4: whatever the zones and the record name, a zone id that is returned
    contains no ['/'], and parsing it again gives it back. *)
Theorem get_hosted_zone_id_has_no_slash
    (tldextract_extract : string -> ExtractResult)
    (self : DNSValidatedACMCertClient) (name : option string) (zone_id : string) :
  get_hosted_zone_id tldextract_extract self name = inr zone_id ->
  ("/"%char ∉ list_ascii_of_string zone_id)
  /\ get_zone_id_from_id_string zone_id = inr zone_id.
Proof.
  intros Hrun.
  assert ("/"%char ∉ list_ascii_of_string zone_id) as Hno.
  { unfold get_hosted_zone_id in Hrun.
    destruct name as [host|]; [|discriminate].
    destruct (List.filter _ _) as [|zone rest]; [discriminate|].
    destruct (zone_Id zone) as [zone_id_string|]; [|discriminate].
    eapply get_zone_id_from_id_string_has_no_slash, Hrun. }
  split; [exact Hno|]. apply get_zone_id_from_id_string_no_slash, Hno.
Qed.

Lemma get_hosted_zone_id_has_no_slash_sample :
  ("/"%char ∉ list_ascii_of_string "Z123")
  /\ get_zone_id_from_id_string "Z123" = inr "Z123".
Proof.
  apply (get_hosted_zone_id_has_no_slash sample_extract sample_client
           (Some "www.example.com") "Z123").
  reflexivity.
Defined.

(** X5: the lookup reads only the first zone that matches: when that zone
    has no [Id] it raises, whether or not a later zone matches as well. *)
Theorem get_hosted_zone_id_zone_without_id
    (tldextract_extract : string -> ExtractResult)
    (self : DNSValidatedACMCertClient) (host : string) pre zone post :
  HostedZones (route53_zones self) = pre ++ zone :: post ->
  Forall (fun z => zone_Name z
                   <> Some (get_domain_from_host tldextract_extract host +:+ ".")) pre ->
  zone_Name zone = Some (get_domain_from_host tldextract_extract host +:+ ".") ->
  zone_Id zone = None ->
  get_hosted_zone_id tldextract_extract self (Some host) = inl AttributeError.
Proof.
  intros Hzones Hpre Hzone Hid.
  rewrite (get_hosted_zone_id_first tldextract_extract self host pre zone post
             Hzones Hpre Hzone), Hid.
  reflexivity.
Qed.

Lemma get_hosted_zone_id_zone_without_id_sample :
  get_hosted_zone_id sample_extract client_zone_without_id (Some "www.example.com")
  = inl AttributeError.
Proof.
  apply (get_hosted_zone_id_zone_without_id sample_extract client_zone_without_id
           "www.example.com" []
           {| zone_Name := Some "example.com."; zone_Id := None |}
           [ {| zone_Name := Some "example.com.";
                zone_Id := Some "/hostedzone/Z123" |} ]).
  - reflexivity.
  - constructor.
  - reflexivity.
  - reflexivity.
Defined.

(** ** The request that succeeds *)

(** X6: when the response signals success the method returns the
    [CertificateArn] of the response ([None] if the key is missing), and the
    one request is all it has done. *)
Theorem request_certificate_accepted
    (acm_request_certificate : world -> kwargs -> exn + BotoResponse)
    (response_succeeded : BotoResponse -> bool)
    (self : DNSValidatedACMCertClient) sans w response :
  acm_request_certificate w (request_kwargs self sans) = inr response ->
  response_succeeded response = true ->
  request_certificate acm_request_certificate response_succeeded self sans w
  = (inr (CertificateArn response), requested (request_kwargs self sans) w).
Proof.
  intros Hresponse Hok. rewrite request_certificate_run, Hresponse, Hok.
  reflexivity.
Qed.

Lemma request_certificate_accepted_sample :
  request_certificate acm_accepts response_succeeded_2xx sample_client
    ["api.example.com"] initial_world
  = (inr (Some "arn:aws:acm:us-east-1:1:certificate/abc"),
     requested (request_kwargs sample_client ["api.example.com"]) initial_world).
Proof.
  exact (request_certificate_accepted acm_accepts response_succeeded_2xx
           sample_client ["api.example.com"] initial_world sample_ok
           eq_refl eq_refl).
Defined.

(** ** More on the wait *)

Section WaitingMore.

Variable acm_describe_certificate : world -> string -> exn + DescribeResponse.

Let get_status := get_certificate_status acm_describe_certificate.
Let loop := wait_loop acm_describe_certificate.
Let wait := wait_for_certificate_validation acm_describe_certificate.

(** A poll always records its call; when it returns a status, the CA gave
    it. *)
Lemma get_certificate_status_world arn w :
  snd (get_status arn w) = described arn w.
Proof.
  unfold get_status, get_certificate_status, bind, call_describe_certificate.
  destruct (acm_describe_certificate w arn) as [e|response]; [reflexivity|].
  simpl. destruct (dr_Certificate response) as [certificate|]; [|reflexivity].
  destruct (Status certificate); reflexivity.
Qed.

Lemma get_certificate_status_inr arn w status w1 :
  get_status arn w = (inr status, w1) ->
  w1 = described arn w
  /\ exists certificate,
       acm_describe_certificate w arn = inr {| dr_Certificate := Some certificate |}
       /\ Status certificate = Some status.
Proof.
  intros Hrun. split.
  - rewrite <- (get_certificate_status_world arn w), Hrun. reflexivity.
  - unfold get_status, get_certificate_status, bind, call_describe_certificate in Hrun.
    destruct (acm_describe_certificate w arn) as [e|[[certificate|]]];
      simpl in Hrun; try discriminate.
    destruct (Status certificate) as [status'|] eqn:Hstatus; [|discriminate].
    injection Hrun as -> _. eauto.
Qed.

(** One evaluation of the loop condition and, when it holds, one turn. *)
Lemma wait_loop_S fuel arn sleep_time timeout status elapsed w :
  loop (S fuel) arn sleep_time timeout status elapsed w =
  if decide (status = "PENDING_VALIDATION") then
    if elapsed >? timeout then
      Some (inl (Exception ("Timeout (" +:+ pretty timeout
                            +:+ "s) reached for certificate validation")), w)
    else if decide (sleep_time < 0) then
      Some (inl ValueError, printed (waiting_line arn sleep_time elapsed) w)
    else
      match get_status arn
              (slept sleep_time (printed (waiting_line arn sleep_time elapsed) w)) with
      | (inl e, w') => Some (inl e, w')
      | (inr status', w') =>
          loop fuel arn sleep_time timeout status' (elapsed + sleep_time) w'
      end
  else Some (inr tt, w).
Proof.
  unfold loop. simpl.
  destruct (decide (status = "PENDING_VALIDATION")); [|reflexivity].
  destruct (elapsed >? timeout); [reflexivity|].
  unfold bind at 1. unfold print at 1. unfold bind at 1. unfold time_sleep at 1.
  destruct (decide (sleep_time < 0)); reflexivity.
Qed.

Lemma pending_forever_run arn w :
  pending_forever acm_describe_certificate ->
  get_status arn w = (inr "PENDING_VALIDATION", described arn w).
Proof.
  intros Hpending. destruct (Hpending w arn) as (certificate & Hd & Hs).
  eapply get_certificate_status_run; eassumption.
Qed.

(** X7: a first status other than PENDING_VALIDATION, FAILED as well as
    ISSUED, makes the wait return normally at once: one poll, no line, no
    sleep. *)
Theorem wait_returns_at_once arn w fuel sleep_time timeout status :
  status_at_poll acm_describe_certificate w 0 status ->
  status <> "PENDING_VALIDATION" ->
  (1 <= fuel)%nat ->
  wait fuel arn sleep_time timeout w = Some (inr tt, described arn w).
Proof.
  intros Hpoll Hstatus Hfuel. destruct fuel as [|fuel]; [lia|].
  unfold wait, wait_for_certificate_validation.
  rewrite (status_at_poll_run acm_describe_certificate w 0 status arn w Hpoll) by lia.
  fold loop. rewrite wait_loop_S.
  destruct (decide (status = "PENDING_VALIDATION")); [contradiction|reflexivity].
Qed.

(** X8: when the first poll raises (the client's own exception, or the
    [KeyError] of a description without [Certificate] or [Status]), the wait
    raises the same after that one call. *)
Theorem wait_first_poll_raises arn w fuel sleep_time timeout e :
  fst (get_status arn w) = inl e ->
  wait fuel arn sleep_time timeout w = Some (inl e, described arn w).
Proof.
  intros Hfirst. unfold wait, wait_for_certificate_validation. fold get_status.
  pose proof (get_certificate_status_world arn w) as Hworld.
  destruct (get_status arn w) as [[e'|status] w1]; simpl in *; [|discriminate].
  injection Hfirst as ->. subst w1. reflexivity.
Qed.

End WaitingMore.

Lemma wait_returns_at_once_sample :
  wait_for_certificate_validation describes_failed 1 "arn" 5 600 initial_world
  = Some (inr tt, described "arn" initial_world).
Proof.
  apply (wait_returns_at_once describes_failed "arn" initial_world 1 5 600 "FAILED").
  - intros w arn _. eexists. split; reflexivity.
  - discriminate.
  - lia.
Defined.

Lemma wait_first_poll_raises_sample :
  wait_for_certificate_validation describes_without_status 0 "arn" 5 600
    initial_world
  = Some (inl (KeyError "Status"), described "arn" initial_world).
Proof.
  apply (wait_first_poll_raises describes_without_status "arn" initial_world 0 5 600
           (KeyError "Status")).
  reflexivity.
Defined.

Lemma wait_for_certificate_validation_terminates_sample :
  exists fuel r,
    wait_for_certificate_validation always_pending fuel "arn" 5 600 initial_world
    = Some r.
Proof.
  apply (wait_for_certificate_validation_terminates always_pending "arn" 5 600
           initial_world).
  lia.
Defined.

(** ** How long the wait lasts *)

Section WaitingBounds.

Variable acm_describe_certificate : world -> string -> exn + DescribeResponse.
Variables (arn : string) (sleep_time timeout : Z).

Let loop := wait_loop acm_describe_certificate.
Let wait := wait_for_certificate_validation acm_describe_certificate.

(** [k] turns of the loop while the certificate stays pending and the time
    is not over. *)
Lemma wait_loop_pending_turns (k fuel : nat) elapsed w :
  pending_forever acm_describe_certificate ->
  0 <= sleep_time ->
  (forall i, (i < k)%nat -> elapsed + Z.of_nat i * sleep_time <= timeout) ->
  exists w',
    loop (k + fuel)%nat arn sleep_time timeout "PENDING_VALIDATION" elapsed w
    = loop fuel arn sleep_time timeout "PENDING_VALIDATION"
        (elapsed + Z.of_nat k * sleep_time) w'
    /\ sleeps w' = sleeps w ++ replicate k sleep_time
    /\ describe_calls w' = describe_calls w ++ replicate k arn.
Proof.
  intros Hpending Hsleep. revert elapsed w.
  induction k as [|k IH]; intros elapsed w Hle.
  - exists w. rewrite !app_nil_r. repeat split.
    replace (elapsed + Z.of_nat 0 * sleep_time) with elapsed by lia. reflexivity.
  - destruct (IH (elapsed + sleep_time)
                (described arn
                   (slept sleep_time
                      (printed (waiting_line arn sleep_time elapsed) w))))
      as (w' & Hrun & Hsleeps & Hpolls).
    { intros i Hi. specialize (Hle (S i) ltac:(lia)). lia. }
    exists w'. split; [|split].
    + change (S k + fuel)%nat with (S (k + fuel)).
      unfold loop. rewrite wait_loop_S.
      destruct (decide ("PENDING_VALIDATION" = "PENDING_VALIDATION")); [|congruence].
      specialize (Hle 0%nat ltac:(lia)).
      destruct (Z.gtb_spec elapsed timeout); [lia|].
      destruct (decide (sleep_time < 0)); [lia|].
      rewrite (pending_forever_run acm_describe_certificate arn _ Hpending).
      fold loop. rewrite Hrun. f_equal. lia.
    + rewrite Hsleeps. simpl. rewrite <- app_assoc. reflexivity.
    + rewrite Hpolls. simpl. rewrite <- app_assoc. reflexivity.
Qed.

(** X10: while the certificate stays pending, a positive sleep time and a
    timeout that is not negative give exactly [timeout / sleep_time + 1]
    sleeps, one more poll than sleeps, and then the timeout exception. *)
Theorem wait_times_out_after_quotient_sleeps w fuel :
  pending_forever acm_describe_certificate ->
  0 < sleep_time -> 0 <= timeout ->
  (Z.to_nat (timeout / sleep_time + 1) + 1 <= fuel)%nat ->
  exists w',
    wait fuel arn sleep_time timeout w
    = Some (inl (Exception ("Timeout (" +:+ pretty timeout
                            +:+ "s) reached for certificate validation")), w')
    /\ sleeps w' = sleeps w ++ replicate (Z.to_nat (timeout / sleep_time + 1)) sleep_time
    /\ describe_calls w'
       = describe_calls w ++ replicate (S (Z.to_nat (timeout / sleep_time + 1))) arn.
Proof.
  intros Hpending Hsleep Htimeout Hfuel.
  pose proof (Z.div_pos timeout sleep_time Htimeout Hsleep) as Hq.
  pose proof (Z.mul_div_le timeout sleep_time Hsleep) as Hlow.
  pose proof (Z.mul_succ_div_gt timeout sleep_time Hsleep) as Hhigh.
  set (k := Z.to_nat (timeout / sleep_time + 1)) in *.
  assert (Z.of_nat k = timeout / sleep_time + 1) as Hk by (unfold k; lia).
  destruct (wait_loop_pending_turns k (fuel - k) 0 (described arn w) Hpending)
    as (w' & Hrun & Hsleeps & Hpolls); [lia| |].
  { intros i Hi. nia. }
  exists w'. split; [|split].
  - unfold wait, wait_for_certificate_validation.
    rewrite (pending_forever_run acm_describe_certificate arn w Hpending).
    fold loop. replace fuel with (k + (fuel - k))%nat at 1 by lia.
    rewrite Hrun.
    destruct (fuel - k)%nat as [|fuel'] eqn:Hrest; [lia|].
    apply wait_loop_timeout. nia.
  - exact Hsleeps.
  - rewrite Hpolls. simpl. rewrite <- app_assoc. reflexivity.
Qed.

(** X11: with a sleep time of 0 the elapsed time never grows: while the
    certificate stays pending the loop has no end, whatever the fuel. *)
Theorem wait_zero_sleep_never_ends w fuel :
  pending_forever acm_describe_certificate ->
  sleep_time = 0 -> 0 <= timeout ->
  wait fuel arn sleep_time timeout w = None.
Proof.
  intros Hpending Hzero Htimeout.
  assert (forall fuel elapsed w,
             elapsed <= timeout ->
             loop fuel arn sleep_time timeout "PENDING_VALIDATION" elapsed w = None)
    as Hloop.
  { clear fuel w. induction fuel as [|fuel IH]; intros elapsed w Hle; [reflexivity|].
    unfold loop. rewrite wait_loop_S.
    destruct (decide ("PENDING_VALIDATION" = "PENDING_VALIDATION")); [|congruence].
    destruct (Z.gtb_spec elapsed timeout); [lia|].
    destruct (decide (sleep_time < 0)); [lia|].
    rewrite (pending_forever_run acm_describe_certificate arn _ Hpending).
    apply IH. lia. }
  unfold wait, wait_for_certificate_validation.
  rewrite (pending_forever_run acm_describe_certificate arn w Hpending).
  apply Hloop, Htimeout.
Qed.

(** X12: a negative sleep time makes [time.sleep] raise in the first turn:
    one poll, one line, no sleep, and a [ValueError] instead of a wait. *)
Theorem wait_negative_sleep_raises w fuel :
  status_at_poll acm_describe_certificate w 0 "PENDING_VALIDATION" ->
  sleep_time < 0 -> 0 <= timeout ->
  (1 <= fuel)%nat ->
  wait fuel arn sleep_time timeout w
  = Some (inl ValueError,
          printed (waiting_line arn sleep_time 0) (described arn w)).
Proof.
  intros Hpoll Hneg Htimeout Hfuel. destruct fuel as [|fuel]; [lia|].
  unfold wait, wait_for_certificate_validation.
  rewrite (status_at_poll_run acm_describe_certificate w 0 _ arn w Hpoll) by lia.
  rewrite wait_loop_S.
  destruct (decide ("PENDING_VALIDATION" = "PENDING_VALIDATION")); [|congruence].
  destruct (Z.gtb_spec 0 timeout); [lia|].
  destruct (decide (sleep_time < 0)); [reflexivity|lia].
Qed.

(** X13: the wait returns normally only after a poll that reported a status
    other than PENDING_VALIDATION, and that poll is the last thing it did. *)
Theorem wait_returns_only_when_not_pending w fuel w' :
  wait fuel arn sleep_time timeout w = Some (inr tt, w') ->
  exists w1 certificate status,
    acm_describe_certificate w1 arn = inr {| dr_Certificate := Some certificate |}
    /\ Status certificate = Some status
    /\ status <> "PENDING_VALIDATION"
    /\ w' = described arn w1.
Proof.
  assert (forall fuel status elapsed w0,
             (exists certificate,
                 acm_describe_certificate w0 arn
                 = inr {| dr_Certificate := Some certificate |}
                 /\ Status certificate = Some status) ->
             loop fuel arn sleep_time timeout status elapsed (described arn w0)
             = Some (inr tt, w') ->
             exists w1 certificate status,
               acm_describe_certificate w1 arn
               = inr {| dr_Certificate := Some certificate |}
               /\ Status certificate = Some status
               /\ status <> "PENDING_VALIDATION"
               /\ w' = described arn w1) as Hloop.
  { clear fuel w. induction fuel as [|fuel IH]; intros status elapsed w0 Hgave;
      [discriminate|].
    unfold loop. rewrite wait_loop_S.
    destruct (decide (status = "PENDING_VALIDATION")) as [Hp|Hnp].
    - destruct (elapsed >? timeout); [discriminate|].
      destruct (decide (sleep_time < 0)); [discriminate|].
      destruct (get_certificate_status acm_describe_certificate arn _)
        as [[e|status'] w2] eqn:Hpoll; [discriminate|].
      apply get_certificate_status_inr in Hpoll as [-> Hgave'].
      apply IH, Hgave'.
    - intros Hrun. injection Hrun as <-.
      destruct Hgave as (certificate & Hd & Hs). eauto 10. }
  unfold wait, wait_for_certificate_validation.
  destruct (get_certificate_status acm_describe_certificate arn w)
    as [[e|status] w1] eqn:Hpoll; [discriminate|].
  apply get_certificate_status_inr in Hpoll as [-> Hgave].
  apply Hloop, Hgave.
Qed.

(** X14: whatever the CA answers and however the wait ends, it has done [n]
    sleeps of [sleep_time] and [n + 1] polls of the same certificate, and has
    requested nothing and changed no DNS record; with a positive sleep time
    the sleeps before the last add up to no more than the timeout. *)
Theorem wait_trace w fuel r w' :
  wait fuel arn sleep_time timeout w = Some (r, w') ->
  exists n : nat,
    sleeps w' = sleeps w ++ replicate n sleep_time
    /\ describe_calls w' = describe_calls w ++ replicate (S n) arn
    /\ acm_requests w' = acm_requests w
    /\ r53_calls w' = r53_calls w
    /\ (0 < sleep_time -> 0 <= timeout ->
        Z.of_nat n * sleep_time <= timeout + sleep_time).
Proof.
  assert (forall fuel status elapsed w,
             loop fuel arn sleep_time timeout status elapsed w = Some (r, w') ->
             exists n : nat,
               sleeps w' = sleeps w ++ replicate n sleep_time
               /\ describe_calls w' = describe_calls w ++ replicate n arn
               /\ acm_requests w' = acm_requests w
               /\ r53_calls w' = r53_calls w
               /\ (0 < sleep_time -> (0 < n)%nat ->
                   elapsed + (Z.of_nat n - 1) * sleep_time <= timeout)) as Hloop.
  { clear fuel w. induction fuel as [|fuel IH]; intros status elapsed w;
      [discriminate|].
    unfold loop. rewrite wait_loop_S.
    destruct (decide (status = "PENDING_VALIDATION")) as [Hp|Hnp].
    - destruct (Z.gtb_spec elapsed timeout) as [Hover|Hle].
      { intros Hrun. injection Hrun as _ <-. exists 0%nat.
        rewrite !app_nil_r. repeat split. lia. }
      destruct (decide (sleep_time < 0)) as [Hneg|Hnonneg].
      { intros Hrun. injection Hrun as _ <-. exists 0%nat.
        simpl. rewrite !app_nil_r. repeat split. lia. }
      pose proof (get_certificate_status_world acm_describe_certificate arn
                    (slept sleep_time
                       (printed (waiting_line arn sleep_time elapsed) w))) as Hworld.
      destruct (get_certificate_status acm_describe_certificate arn _)
        as [[e|status'] w2]; simpl in Hworld; subst w2.
      + intros Hrun. injection Hrun as _ <-. exists 1%nat. simpl.
        repeat split. lia.
      + intros Hrun. destruct (IH _ _ _ Hrun) as (n & Hs & Hd & Ha & Hr & Hbound).
        exists (S n). simpl in Hs, Hd, Ha, Hr.
        split; [rewrite Hs, <- app_assoc; reflexivity|].
        split; [rewrite Hd, <- app_assoc; reflexivity|].
        split; [exact Ha|]. split; [exact Hr|].
        intros Hpos _. destruct n as [|n]; [simpl; lia|].
        specialize (Hbound Hpos ltac:(lia)). lia.
    - intros Hrun. injection Hrun as _ <-. exists 0%nat.
      rewrite !app_nil_r. repeat split. lia. }
  unfold wait, wait_for_certificate_validation.
  pose proof (get_certificate_status_world acm_describe_certificate arn w) as Hworld.
  destruct (get_certificate_status acm_describe_certificate arn w)
    as [[e|status] w1]; simpl in Hworld; subst w1.
  - intros Hrun. injection Hrun as _ <-. exists 0%nat. simpl.
    rewrite app_nil_r. repeat split. lia.
  - intros Hrun. destruct (Hloop _ _ _ _ Hrun) as (n & Hs & Hd & Ha & Hr & Hbound).
    exists n. simpl in Hs, Hd, Ha, Hr.
    split; [exact Hs|]. split; [rewrite Hd, <- app_assoc; reflexivity|].
    split; [exact Ha|]. split; [exact Hr|].
    intros Hpos Htimeout. destruct n as [|n]; [simpl; lia|].
    specialize (Hbound Hpos ltac:(lia)). lia.
Qed.

End WaitingBounds.

Lemma wait_times_out_after_quotient_sleeps_sample :
  exists w',
    wait_for_certificate_validation always_pending 122 "arn" 5 600 initial_world
    = Some (inl (Exception "Timeout (600s) reached for certificate validation"), w')
    /\ sleeps w' = sleeps initial_world ++ replicate 121 5
    /\ describe_calls w' = describe_calls initial_world ++ replicate 122 "arn".
Proof.
  apply (wait_times_out_after_quotient_sleeps always_pending "arn" 5 600
           initial_world 122).
  - intros w arn. eexists. split; reflexivity.
  - lia.
  - lia.
  - vm_compute. lia.
Defined.

Lemma wait_zero_sleep_never_ends_sample :
  wait_for_certificate_validation always_pending 50 "arn" 0 10 initial_world = None.
Proof.
  apply (wait_zero_sleep_never_ends always_pending "arn" 0 10 initial_world 50).
  - intros w arn. eexists. split; reflexivity.
  - reflexivity.
  - lia.
Defined.

Lemma wait_negative_sleep_raises_sample :
  wait_for_certificate_validation always_pending 1 "arn" (-1) 10 initial_world
  = Some (inl ValueError,
          printed (waiting_line "arn" (-1) 0) (described "arn" initial_world)).
Proof.
  apply (wait_negative_sleep_raises always_pending "arn" (-1) 10 initial_world 1).
  - intros w arn _. eexists. split; reflexivity.
  - lia.
  - lia.
  - lia.
Defined.

Lemma wait_returns_only_when_not_pending_sample :
  exists w1 certificate status,
    issued_on_third_poll w1 "arn" = inr {| dr_Certificate := Some certificate |}
    /\ Status certificate = Some status
    /\ status <> "PENDING_VALIDATION"
    /\ turn "arn" 5 5 (turn "arn" 5 0 (described "arn" initial_world))
       = described "arn" w1.
Proof.
  apply (wait_returns_only_when_not_pending issued_on_third_poll "arn" 5 600
           initial_world 3).
  reflexivity.
Defined.

Lemma wait_trace_sample :
  exists n : nat,
    sleeps (turn "arn" 5 10 (turn "arn" 5 5 (turn "arn" 5 0
              (described "arn" initial_world))))
    = sleeps initial_world ++ replicate n 5
    /\ describe_calls (turn "arn" 5 10 (turn "arn" 5 5 (turn "arn" 5 0
                          (described "arn" initial_world))))
       = describe_calls initial_world ++ replicate (S n) "arn"
    /\ acm_requests (turn "arn" 5 10 (turn "arn" 5 5 (turn "arn" 5 0
                        (described "arn" initial_world))))
       = acm_requests initial_world
    /\ r53_calls (turn "arn" 5 10 (turn "arn" 5 5 (turn "arn" 5 0
                     (described "arn" initial_world))))
       = r53_calls initial_world
    /\ (0 < 5 -> 0 <= 10 -> Z.of_nat n * 5 <= 10 + 5).
Proof.
  apply (wait_trace always_pending "arn" 5 10 initial_world 4
           (inl (Exception "Timeout (10s) reached for certificate validation"))).
  reflexivity.
Defined.

(** ** More on the validation records *)

Lemma printed_all_fields lines w :
  acm_requests (printed_all lines w) = acm_requests w
  /\ describe_calls (printed_all lines w) = describe_calls w
  /\ r53_calls (printed_all lines w) = r53_calls w
  /\ sleeps (printed_all lines w) = sleeps w
  /\ stdout (printed_all lines w) = stdout w ++ lines.
Proof.
  unfold printed_all. revert w.
  induction lines as [|line lines IH]; intros w; simpl.
  - rewrite app_nil_r. repeat split.
  - destruct (IH (printed line w)) as (Ha & Hd & Hr & Hs & Ho).
    rewrite Ha, Hd, Hr, Hs, Ho. simpl. rewrite <- app_assoc. repeat split.
Qed.

(** The comprehension over complete records: the changes, and one line per
    record. *)
Lemma list_comprehension_create_lines records rrs w :
  mapM dvo_ResourceRecord records = Some rrs ->
  list_comprehension create_dns_record_set records w
  = (inr (change_of_triple <$> (get_resource_record_data <$> rrs)),
     printed_all (creating_line <$> rrs) w).
Proof.
  intros Hall. apply mapM_Some in Hall. revert w.
  induction Hall as [|record r records rrs Hr _ IH]; intros w; [reflexivity|].
  simpl. unfold bind at 1. unfold create_dns_record_set. rewrite Hr. simpl.
  unfold bind at 1. unfold print at 1. unfold bind at 1.
  rewrite IH. reflexivity.
Qed.

(** The comprehension over records of which one has no [ResourceRecord]. *)
Lemma list_comprehension_create_missing records w :
  Exists (fun record => dvo_ResourceRecord record = None) records ->
  exists w',
    list_comprehension create_dns_record_set records w = (inl AttributeError, w')
    /\ only_printed w w'.
Proof.
  revert w. induction records as [|record records IH]; intros w Hmissing.
  - inversion Hmissing.
  - destruct (dvo_ResourceRecord record) as [r|] eqn:Hr.
    + apply Exists_cons in Hmissing as [Hhead|Htail]; [congruence|].
      destruct (create_dns_record_set_run record r w Hr) as (w1 & Hrun & Hp1).
      destruct (IH w1 Htail) as (w2 & Hrest & Hp2).
      exists w2. split; [|eapply only_printed_trans; eassumption].
      simpl. unfold bind at 1. rewrite Hrun. unfold bind at 1. rewrite Hrest.
      reflexivity.
    + exists w. split; [|apply only_printed_refl].
      simpl. unfold bind at 1.
      rewrite (create_dns_record_set_missing record w Hr). reflexivity.
Qed.

Lemma complete_or_missing records :
  (exists rrs, mapM dvo_ResourceRecord records = Some rrs)
  \/ Exists (fun record => dvo_ResourceRecord record = None) records.
Proof.
  induction records as [|record records IH].
  - left. exists []. reflexivity.
  - destruct (dvo_ResourceRecord record) as [r|] eqn:Hr.
    + destruct IH as [[rrs Hall]|Hmissing].
      * left. exists (r :: rrs). apply mapM_Some. constructor; [exact Hr|].
        apply mapM_Some, Hall.
      * right. apply Exists_cons_tl, Hmissing.
    + right. apply Exists_cons_hd, Hr.
Qed.

Lemma for_each_app {A} (l1 l2 : list A) (body : A -> M unit) w :
  for_each (l1 ++ l2) body w
  = match for_each l1 body w with
    | (inl e, w') => (inl e, w')
    | (inr _, w') => for_each l2 body w'
    end.
Proof.
  revert w. induction l1 as [|x l1 IH]; intros w; [reflexivity|].
  simpl. unfold bind. destruct (body x w) as [[e|[]] w1]; [reflexivity|]. apply IH.
Qed.

Section SubmittingMore.

Variable acm_describe_certificate : world -> string -> exn + DescribeResponse.
Variable r53_change_resource_record_sets :
  world -> string -> list Change -> exn + BotoResponse.
Variable tldextract_extract : string -> ExtractResult.
Variable response_succeeded : BotoResponse -> bool.
Variable repr_response : BotoResponse -> string.
Variable self : DNSValidatedACMCertClient.

Let submit :=
  submit_change r53_change_resource_record_sets tldextract_extract
    response_succeeded repr_response self.
Let zone_of := get_hosted_zone_id tldextract_extract self.
Let create_records :=
  create_domain_validation_records acm_describe_certificate
    r53_change_resource_record_sets tldextract_extract response_succeeded
    repr_response self.
Let get_records := get_domain_validation_records acm_describe_certificate.

(** The fetch: one description, read with defaults. *)
Lemma get_domain_validation_records_run arn w :
  get_records arn w
  = (match acm_describe_certificate w arn with
     | inl e => inl e
     | inr response =>
         inr (match dr_Certificate response with
              | None => []
              | Some certificate => default [] (DomainValidationOptions certificate)
              end)
     end, described arn w).
Proof.
  unfold get_records, get_domain_validation_records, bind, call_describe_certificate.
  destruct (acm_describe_certificate w arn); reflexivity.
Qed.

(** What the loop does with one change. *)
Lemma submit_change_eq change w :
  submit change w
  = match zone_of (Name (change_ResourceRecordSet change)) with
    | inl e => (inl e, w)
    | inr zone_id =>
        match r53_change_resource_record_sets w zone_id [change] with
        | inl e =>
            (inl e, submitted {| call_HostedZoneId := zone_id;
                                 call_Changes := [change];
                                 call_outcome := inl e |} w)
        | inr response =>
            (inr tt,
             printed (outcome_line response_succeeded repr_response change response)
               (submitted {| call_HostedZoneId := zone_id;
                             call_Changes := [change];
                             call_outcome := inr response |} w))
        end
    end.
Proof.
  unfold submit, submit_change, bind, lift, call_change_resource_record_sets,
    zone_of, outcome_line.
  destruct (get_hosted_zone_id _ _ _) as [e|zone_id]; [reflexivity|].
  destruct (r53_change_resource_record_sets w zone_id [change]) as [e|response];
    [reflexivity|].
  destruct (response_succeeded response); reflexivity.
Qed.

(** The loop, however it ends: it calls the DNS service for a prefix of the
    changes, each call targeted, and does nothing but call and print. *)
Lemma for_each_submit_trace changes w r w' :
  for_each changes submit w = (r, w') ->
  exists calls,
    r53_calls w' = r53_calls w ++ calls
    /\ call_Changes <$> calls = (fun change => [change]) <$> take (length calls) changes
    /\ Forall (targeted tldextract_extract self) calls
    /\ acm_requests w' = acm_requests w
    /\ describe_calls w' = describe_calls w
    /\ sleeps w' = sleeps w.
Proof.
  revert w. induction changes as [|change changes IH]; intros w.
  - simpl. unfold ret. intros Hrun. injection Hrun as _ <-.
    exists []. rewrite app_nil_r. repeat split. constructor.
  - simpl. unfold bind. rewrite submit_change_eq.
    destruct (zone_of (Name (change_ResourceRecordSet change))) as [e|zone_id] eqn:Hzone.
    { intros Hrun. injection Hrun as _ <-.
      exists []. rewrite app_nil_r. repeat split. constructor. }
    destruct (r53_change_resource_record_sets w zone_id [change]) as [e|response].
    { intros Hrun. injection Hrun as _ <-.
      exists [ {| call_HostedZoneId := zone_id; call_Changes := [change];
                  call_outcome := inl e |} ].
      repeat split. constructor; [|constructor]. exists change. split; [reflexivity|].
      exact Hzone. }
    intros Hrun. destruct (IH _ Hrun) as (calls & Hcalls & Hprefix & Htargeted & Ha & Hd & Hs).
    exists ({| call_HostedZoneId := zone_id; call_Changes := [change];
               call_outcome := inr response |} :: calls).
    simpl in Hcalls, Ha, Hd, Hs.
    split; [rewrite Hcalls, <- app_assoc; reflexivity|].
    split; [simpl; f_equal; exact Hprefix|].
    split; [|repeat split; assumption].
    constructor; [|exact Htargeted]. exists change. split; [reflexivity|exact Hzone].
Qed.

(** The loop over changes that all have a zone and an answer: every change
    is submitted and has its line. *)
Lemma for_each_submit_answers changes w :
  (forall change, change ∈ changes ->
     exists zone_id,
       zone_of (Name (change_ResourceRecordSet change)) = inr zone_id
       /\ forall w0, exists response,
            r53_change_resource_record_sets w0 zone_id [change] = inr response) ->
  exists w' calls lines,
    for_each changes submit w = (inr tt, w')
    /\ r53_calls w' = r53_calls w ++ calls
    /\ stdout w' = stdout w ++ lines
    /\ call_Changes <$> calls = (fun change => [change]) <$> changes
    /\ length lines = length changes.
Proof.
  revert w. induction changes as [|change changes IH]; intros w Hall.
  - exists w, [], []. rewrite !app_nil_r. repeat split.
  - destruct (Hall change) as (zone_id & Hzone & Hanswers); [left|].
    destruct (Hanswers w) as [response Hresponse].
    destruct (IH (printed (outcome_line response_succeeded repr_response change response)
                    (submitted {| call_HostedZoneId := zone_id;
                                  call_Changes := [change];
                                  call_outcome := inr response |} w)))
      as (w' & calls & lines & Hrun & Hcalls & Hlines & Hchanges & Hlen).
    { intros c Hc. apply Hall. right. exact Hc. }
    exists w', ({| call_HostedZoneId := zone_id; call_Changes := [change];
                   call_outcome := inr response |} :: calls),
      (outcome_line response_succeeded repr_response change response :: lines).
    simpl in Hcalls, Hlines.
    split; [|split; [|split; [|split]]].
    + simpl. unfold bind. rewrite submit_change_eq, Hzone, Hresponse. exact Hrun.
    + rewrite Hcalls, <- app_assoc. reflexivity.
    + rewrite Hlines, <- app_assoc. reflexivity.
    + rewrite !fmap_cons, Hchanges. reflexivity.
    + simpl. rewrite Hlen. reflexivity.
Qed.

(** The method after the fetch and the comprehension over complete records:
    the loop over the deduplicated changes, started after one description
    and one line per record. *)
Lemma create_domain_validation_records_loop arn w records rrs :
  fst (get_records arn w) = inr records ->
  mapM dvo_ResourceRecord records = Some rrs ->
  create_records arn w
  = for_each
      (remove_duplicate_upsert_records
         (change_of_triple <$> (get_resource_record_data <$> rrs)))
      submit
      (printed_all (creating_line <$> rrs) (described arn w)).
Proof.
  intros Hrecords Hall.
  unfold create_records, create_domain_validation_records.
  fold get_records. fold submit.
  unfold bind at 1. rewrite get_domain_validation_records_run in *.
  simpl in Hrecords. rewrite Hrecords.
  unfold bind at 1. unfold build_change_set, bind at 1.
  rewrite (list_comprehension_create_lines records rrs _ Hall). reflexivity.
Qed.

End SubmittingMore.

Section Records.

Variable acm_describe_certificate : world -> string -> exn + DescribeResponse.
Variable r53_change_resource_record_sets :
  world -> string -> list Change -> exn + BotoResponse.
Variable tldextract_extract : string -> ExtractResult.
Variable response_succeeded : BotoResponse -> bool.
Variable repr_response : BotoResponse -> string.
Variable self : DNSValidatedACMCertClient.

Let submit :=
  submit_change r53_change_resource_record_sets tldextract_extract
    response_succeeded repr_response self.
Let zone_of := get_hosted_zone_id tldextract_extract self.
Let create_records :=
  create_domain_validation_records acm_describe_certificate
    r53_change_resource_record_sets tldextract_extract response_succeeded
    repr_response self.
Let get_records := get_domain_validation_records acm_describe_certificate.

(** The three ways the method goes: the fetch raises; a record has no
    [ResourceRecord]; or the loop runs over the deduplicated changes. *)
Lemma create_domain_validation_records_cases arn w :
  (exists e,
      fst (get_records arn w) = inl e
      /\ create_records arn w = (inl e, described arn w))
  \/ (exists records w',
         fst (get_records arn w) = inr records
         /\ Exists (fun record => dvo_ResourceRecord record = None) records
         /\ create_records arn w = (inl AttributeError, w')
         /\ only_printed (described arn w) w')
  \/ (exists records rrs,
         fst (get_records arn w) = inr records
         /\ mapM dvo_ResourceRecord records = Some rrs
         /\ create_records arn w
            = for_each
                (remove_duplicate_upsert_records
                   (change_of_triple <$> (get_resource_record_data <$> rrs)))
                submit
                (printed_all (creating_line <$> rrs) (described arn w))).
Proof.
  destruct (fst (get_records arn w)) as [e|records] eqn:Hfetch.
  - left. exists e. split; [reflexivity|].
    unfold create_records, create_domain_validation_records, bind.
    unfold get_records in Hfetch.
    rewrite get_domain_validation_records_run in *. simpl in Hfetch.
    rewrite Hfetch. reflexivity.
  - right. destruct (complete_or_missing records) as [[rrs Hall]|Hmissing].
    + right. exists records, rrs. split; [reflexivity|]. split; [exact Hall|].
      apply (create_domain_validation_records_loop _ _ _ _ _ _ arn w records rrs);
        [exact Hfetch|exact Hall].
    + left.
      destruct (list_comprehension_create_missing records (described arn w) Hmissing)
        as (w' & Hrun & Hprinted).
      exists records, w'. split; [reflexivity|]. split; [exact Hmissing|].
      split; [|exact Hprinted].
      unfold create_records, create_domain_validation_records.
      unfold bind at 1. unfold get_records in Hfetch.
      rewrite get_domain_validation_records_run in *. simpl in Hfetch.
      rewrite Hfetch. unfold bind at 1. unfold build_change_set, bind at 1.
      rewrite Hrun. reflexivity.
Qed.

(** X15: however the method ends, it has described the certificate once,
    and it has requested no certificate and slept at no time. *)
Theorem create_domain_validation_records_trace arn w r w' :
  create_records arn w = (r, w') ->
  describe_calls w' = describe_calls w ++ [arn]
  /\ acm_requests w' = acm_requests w
  /\ sleeps w' = sleeps w.
Proof.
  intros Hrun.
  destruct (create_domain_validation_records_cases arn w)
    as [(e & _ & Hcase)|[(records & w1 & _ & _ & Hcase & Hprinted)
                        |(records & rrs & _ & _ & Hcase)]];
    rewrite Hcase in Hrun.
  - injection Hrun as _ <-. repeat split.
  - injection Hrun as _ <-. destruct Hprinted as (Ha & Hd & _ & Hs & _).
    rewrite Ha, Hd, Hs. repeat split.
  - apply for_each_submit_trace in Hrun as (calls & _ & _ & _ & Ha & Hd & Hs).
    destruct (printed_all_fields (creating_line <$> rrs) (described arn w))
      as (Ha' & Hd' & _ & Hs' & _).
    rewrite Ha, Hd, Hs, Ha', Hd', Hs'. repeat split.
Qed.

(** X16: however the method ends, each call it made to the DNS service
    carries exactly one change and goes to the zone found for the name of
    that change, and no change was submitted twice. *)
Theorem create_domain_validation_records_submissions arn w r w' :
  create_records arn w = (r, w') ->
  exists calls,
    r53_calls w' = r53_calls w ++ calls
    /\ Forall (targeted tldextract_extract self) calls
    /\ NoDup (call_Changes <$> calls).
Proof.
  intros Hrun.
  destruct (create_domain_validation_records_cases arn w)
    as [(e & _ & Hcase)|[(records & w1 & _ & _ & Hcase & Hprinted)
                        |(records & rrs & _ & _ & Hcase)]];
    rewrite Hcase in Hrun.
  - injection Hrun as _ <-. exists []. simpl. rewrite app_nil_r.
    repeat split; constructor.
  - injection Hrun as _ <-. destruct Hprinted as (_ & _ & Hr & _ & _).
    exists []. rewrite Hr, app_nil_r. simpl. repeat split; constructor.
  - apply for_each_submit_trace in Hrun as (calls & Hcalls & Hprefix & Htargeted & _).
    destruct (printed_all_fields (creating_line <$> rrs) (described arn w))
      as (_ & _ & Hr & _ & _).
    exists calls. split; [rewrite Hcalls, Hr; reflexivity|].
    split; [exact Htargeted|]. rewrite Hprefix.
    apply (NoDup_fmap_2 (fun change : Change => [change])).
    eapply sublist_NoDup; [apply NoDup_unique|apply sublist_take].
Qed.

(** X17: a description without [Certificate], without
    [DomainValidationOptions], or with no option at all is no error: the
    records are the empty list and the method returns having submitted and
    printed nothing. *)
Theorem create_domain_validation_records_no_option arn w response :
  acm_describe_certificate w arn = inr response ->
  (dr_Certificate response = None
   \/ exists certificate,
        dr_Certificate response = Some certificate
        /\ (DomainValidationOptions certificate = None
            \/ DomainValidationOptions certificate = Some [])) ->
  get_records arn w = (inr [], described arn w)
  /\ create_records arn w = (inr tt, described arn w).
Proof.
  intros Hdescribe Hnone.
  assert (get_records arn w = (inr [], described arn w)) as Hfetch.
  { unfold get_records. rewrite get_domain_validation_records_run, Hdescribe.
    destruct Hnone as [->|(certificate & -> & [->| ->])]; reflexivity. }
  split; [exact Hfetch|].
  unfold create_records.
  rewrite (create_domain_validation_records_loop _ _ _ _ _ _ arn w [] []);
    [reflexivity| |reflexivity].
  fold get_records. rewrite Hfetch. reflexivity.
Qed.

(** X18: when one validation option has no [ResourceRecord] the method
    raises before the loop: no change is submitted, not even those of the
    complete options that come first. *)
Theorem create_domain_validation_records_incomplete arn w records :
  fst (get_records arn w) = inr records ->
  Exists (fun record => dvo_ResourceRecord record = None) records ->
  exists w',
    create_records arn w = (inl AttributeError, w')
    /\ r53_calls w' = r53_calls w.
Proof.
  intros Hfetch Hmissing.
  destruct (list_comprehension_create_missing records (described arn w) Hmissing)
    as (w' & Hrun & Hprinted).
  exists w'. split.
  - unfold create_records, create_domain_validation_records.
    unfold bind at 1. unfold get_records in Hfetch.
    rewrite get_domain_validation_records_run in *. simpl in Hfetch.
    rewrite Hfetch. unfold bind at 1. unfold build_change_set, bind at 1.
    rewrite Hrun. reflexivity.
  - destruct Hprinted as (_ & _ & Hr & _ & _). exact Hr.
Qed.

End Records.

(** ** Where the submission loop stops *)

Section Stopping.

Variable acm_describe_certificate : world -> string -> exn + DescribeResponse.
Variable r53_change_resource_record_sets :
  world -> string -> list Change -> exn + BotoResponse.
Variable tldextract_extract : string -> ExtractResult.
Variable response_succeeded : BotoResponse -> bool.
Variable repr_response : BotoResponse -> string.
Variable self : DNSValidatedACMCertClient.

Let submit :=
  submit_change r53_change_resource_record_sets tldextract_extract
    response_succeeded repr_response self.
Let zone_of := get_hosted_zone_id tldextract_extract self.
Let create_records :=
  create_domain_validation_records acm_describe_certificate
    r53_change_resource_record_sets tldextract_extract response_succeeded
    repr_response self.
Let get_records := get_domain_validation_records acm_describe_certificate.

(** The change has a zone and the DNS client answers it with a response. *)
Let accepted (change : Change) : Prop :=
  exists zone_id,
    zone_of (Name (change_ResourceRecordSet change)) = inr zone_id
    /\ forall w0, exists response,
         r53_change_resource_record_sets w0 zone_id [change] = inr response.

Variables (arn : string) (w : world).
Variables (records : list DomainValidationOption) (rrs : list ResourceRecord).

Hypothesis fetched : fst (get_records arn w) = inr records.
Hypothesis complete : mapM dvo_ResourceRecord records = Some rrs.

Let unique_changes :=
  remove_duplicate_upsert_records
    (change_of_triple <$> (get_resource_record_data <$> rrs)).

(** X19: a change whose zone lookup raises stops the whole loop: the
    exception leaves the method, the changes before it have been submitted
    and not one of the changes after it. *)
Theorem create_domain_validation_records_zone_error pre change post e :
  unique_changes = pre ++ change :: post ->
  (forall c, c ∈ pre -> accepted c) ->
  zone_of (Name (change_ResourceRecordSet change)) = inl e ->
  exists w' calls,
    create_records arn w = (inl e, w')
    /\ r53_calls w' = r53_calls w ++ calls
    /\ call_Changes <$> calls = (fun c => [c]) <$> pre.
Proof.
  intros Hsplit Hpre Hzone.
  destruct (for_each_submit_answers r53_change_resource_record_sets
              tldextract_extract response_succeeded repr_response self pre
              (printed_all (creating_line <$> rrs) (described arn w)) Hpre)
    as (w1 & calls & lines & Hrun & Hcalls & _ & Hchanges & _).
  exists w1, calls. split; [|split; [|exact Hchanges]].
  - unfold create_records.
    rewrite (create_domain_validation_records_loop _ _ _ _ _ _ arn w records rrs
               fetched complete).
    fold unique_changes. rewrite Hsplit, for_each_app, Hrun.
    simpl. unfold bind. rewrite submit_change_eq.
    fold zone_of. rewrite Hzone. reflexivity.
  - rewrite Hcalls.
    destruct (printed_all_fields (creating_line <$> rrs) (described arn w))
      as (_ & _ & Hr & _ & _).
    rewrite Hr. reflexivity.
Qed.

(** X20: an exception of the DNS client stops the whole loop as well: the
    call that raised is the last one, the changes after it are not
    submitted. *)
Theorem create_domain_validation_records_client_error
    pre change post zone_id e :
  unique_changes = pre ++ change :: post ->
  (forall c, c ∈ pre -> accepted c) ->
  zone_of (Name (change_ResourceRecordSet change)) = inr zone_id ->
  (forall w0, r53_change_resource_record_sets w0 zone_id [change] = inl e) ->
  exists w' calls,
    create_records arn w = (inl e, w')
    /\ r53_calls w'
       = r53_calls w ++ calls
         ++ [ {| call_HostedZoneId := zone_id; call_Changes := [change];
                 call_outcome := inl e |} ]
    /\ call_Changes <$> calls = (fun c => [c]) <$> pre.
Proof.
  intros Hsplit Hpre Hzone Hraises.
  destruct (for_each_submit_answers r53_change_resource_record_sets
              tldextract_extract response_succeeded repr_response self pre
              (printed_all (creating_line <$> rrs) (described arn w)) Hpre)
    as (w1 & calls & lines & Hrun & Hcalls & _ & Hchanges & _).
  eexists. exists calls. split; [|split; [|exact Hchanges]].
  - unfold create_records.
    rewrite (create_domain_validation_records_loop _ _ _ _ _ _ arn w records rrs
               fetched complete).
    fold unique_changes. rewrite Hsplit, for_each_app, Hrun.
    simpl. unfold bind. rewrite submit_change_eq.
    fold zone_of. rewrite Hzone, Hraises. reflexivity.
  - simpl. rewrite Hcalls.
    destruct (printed_all_fields (creating_line <$> rrs) (described arn w))
      as (_ & _ & Hr & _ & _).
    rewrite Hr, <- app_assoc. reflexivity.
Qed.


End Stopping.

Lemma create_domain_validation_records_trace_sample :
  describe_calls (snd sample_run) = describe_calls initial_world ++ ["arn"]
  /\ acm_requests (snd sample_run) = acm_requests initial_world
  /\ sleeps (snd sample_run) = sleeps initial_world.
Proof.
  apply (create_domain_validation_records_trace describes_options r53_first_fails
           sample_extract response_succeeded_2xx sample_repr sample_client "arn"
           initial_world (fst sample_run) (snd sample_run)).
  reflexivity.
Defined.

Lemma create_domain_validation_records_submissions_sample :
  exists calls,
    r53_calls (snd sample_run) = r53_calls initial_world ++ calls
    /\ Forall (targeted sample_extract sample_client) calls
    /\ NoDup (call_Changes <$> calls).
Proof.
  apply (create_domain_validation_records_submissions describes_options
           r53_first_fails sample_extract response_succeeded_2xx sample_repr
           sample_client "arn" initial_world (fst sample_run) (snd sample_run)).
  reflexivity.
Defined.

Lemma create_domain_validation_records_no_option_sample :
  get_domain_validation_records describes_nothing "arn" initial_world
  = (inr [], described "arn" initial_world)
  /\ create_domain_validation_records describes_nothing r53_accepts sample_extract
       response_succeeded_2xx sample_repr sample_client "arn" initial_world
     = (inr tt, described "arn" initial_world).
Proof.
  apply (create_domain_validation_records_no_option describes_nothing r53_accepts
           sample_extract response_succeeded_2xx sample_repr sample_client "arn"
           initial_world {| dr_Certificate := None |}).
  - reflexivity.
  - left. reflexivity.
Defined.

Lemma create_domain_validation_records_incomplete_sample :
  exists w',
    create_domain_validation_records describes_incomplete r53_accepts
      sample_extract response_succeeded_2xx sample_repr sample_client "arn"
      initial_world = (inl AttributeError, w')
    /\ r53_calls w' = r53_calls initial_world.
Proof.
  apply (create_domain_validation_records_incomplete describes_incomplete
           r53_accepts sample_extract response_succeeded_2xx sample_repr
           sample_client "arn" initial_world
           [ {| dvo_ResourceRecord :=
                  Some (sample_rr "_a.www.example.com" "_x.acm-validations.aws.") |};
             {| dvo_ResourceRecord := None |} ]).
  - reflexivity.
  - apply Exists_cons_tl, Exists_cons_hd. reflexivity.
Defined.

Lemma create_domain_validation_records_zone_error_sample :
  exists w' calls,
    create_domain_validation_records describes_options r53_accepts sample_extract
      response_succeeded_2xx sample_repr client_one_zone "arn" initial_world
    = (inl IndexError, w')
    /\ r53_calls w' = r53_calls initial_world ++ calls
    /\ call_Changes <$> calls = (fun c => [c]) <$> [sample_change_a].
Proof.
  apply (create_domain_validation_records_zone_error describes_options r53_accepts
           sample_extract response_succeeded_2xx sample_repr client_one_zone
           "arn" initial_world sample_options sample_records eq_refl eq_refl
           [sample_change_a] sample_change_b [] IndexError).
  - reflexivity.
  - intros c Hin.
    elem_of_cases Hin ltac:(eexists; split; [reflexivity|]; intros w0; eexists;
                            reflexivity).
  - reflexivity.
Defined.

Lemma create_domain_validation_records_client_error_sample :
  exists w' calls,
    create_domain_validation_records describes_options r53_raises_for_other
      sample_extract response_succeeded_2xx sample_repr sample_client "arn"
      initial_world
    = (inl (ClientError "Throttling"), w')
    /\ r53_calls w'
       = r53_calls initial_world ++ calls
         ++ [ {| call_HostedZoneId := "Z456"; call_Changes := [sample_change_b];
                 call_outcome := inl (ClientError "Throttling") |} ]
    /\ call_Changes <$> calls = (fun c => [c]) <$> [sample_change_a].
Proof.
  apply (create_domain_validation_records_client_error describes_options
           r53_raises_for_other sample_extract response_succeeded_2xx sample_repr
           sample_client "arn" initial_world sample_options sample_records
           eq_refl eq_refl [sample_change_a] sample_change_b [] "Z456"
           (ClientError "Throttling")).
  - reflexivity.
  - intros c Hin.
    elem_of_cases Hin ltac:(eexists; split; [reflexivity|]; intros w0; eexists;
                            reflexivity).
  - reflexivity.
  - intros w0. reflexivity.
Defined.


(** ** A timeout below zero *)

(** X22: with a negative timeout the elapsed time of 0 already exceeds it: a
    pending certificate makes the wait raise its timeout exception after the
    first poll, before any line or sleep. *)
Theorem wait_negative_timeout_raises
    (acm_describe_certificate : world -> string -> exn + DescribeResponse)
    arn sleep_time timeout w fuel :
  status_at_poll acm_describe_certificate w 0 "PENDING_VALIDATION" ->
  timeout < 0 ->
  (1 <= fuel)%nat ->
  wait_for_certificate_validation acm_describe_certificate fuel arn
    sleep_time timeout w
  = Some (inl (Exception ("Timeout (" +:+ pretty timeout
                          +:+ "s) reached for certificate validation")),
          described arn w).
Proof.
  intros Hpoll Hneg Hfuel. destruct fuel as [|fuel]; [lia|].
  unfold wait_for_certificate_validation.
  rewrite (status_at_poll_run acm_describe_certificate w 0 _ arn w Hpoll) by lia.
  apply wait_loop_timeout. lia.
Qed.

Lemma wait_negative_timeout_raises_sample :
  wait_for_certificate_validation always_pending 1 "arn" 5 (-1) initial_world
  = Some (inl (Exception "Timeout (-1s) reached for certificate validation"),
          described "arn" initial_world).
Proof.
  apply (wait_negative_timeout_raises always_pending "arn" 5 (-1) initial_world 1).
  - intros w arn _. eexists. split; reflexivity.
  - lia.
  - lia.
Defined.
